(** * Tableau metadata extraction and context assembly

    A shallow embedding of the workbook parser, the prep-flow parser and the
    context manager, with the properties of their extraction and formatting
    rules.

    Text is modelled by [string]; one [ascii] stands for one character, so
    the case mappings below cover the ASCII letters. *)

From Stdlib Require Import ZArith List Bool Ascii String Lia.
From Stdlib Require Import DecimalString DecimalPos DecimalZ.
From stdpp Require Import base option list strings gmap.

Local Open Scope string_scope.
Local Open Scope list_scope.

(** ** Python string primitives *)

Module Py.

(** [s.startswith(p)] *)
Fixpoint startswith (p s : string) : bool :=
  match p, s with
  | EmptyString, _ => true
  | String a p', String b s' => if Ascii.eqb a b then startswith p' s' else false
  | String _ _, EmptyString => false
  end.

(** [sub in s] *)
Fixpoint contains (sub s : string) : bool :=
  startswith sub s ||
  match s with
  | EmptyString => false
  | String _ s' => contains sub s'
  end.

Definition is_upper (c : ascii) : bool :=
  let n := nat_of_ascii c in (65 <=? n)%nat && (n <=? 90)%nat.
Definition is_lower (c : ascii) : bool :=
  let n := nat_of_ascii c in (97 <=? n)%nat && (n <=? 122)%nat.
Definition to_upper (c : ascii) : ascii :=
  if is_lower c then ascii_of_nat (nat_of_ascii c - 32) else c.
Definition to_lower (c : ascii) : ascii :=
  if is_upper c then ascii_of_nat (nat_of_ascii c + 32) else c.

Fixpoint map_chars (f : ascii -> ascii) (s : string) : string :=
  match s with
  | EmptyString => EmptyString
  | String c s' => String (f c) (map_chars f s')
  end.

(** [s.upper()], [s.lower()] *)
Definition upper : string -> string := map_chars to_upper.
Definition lower : string -> string := map_chars to_lower.

(** [s.replace(a, b)] for single characters [a], [b] *)
Definition replace_char (a b : ascii) : string -> string :=
  map_chars (fun c => if Ascii.eqb c a then b else c).

(** [s.title()]: a letter that follows a letter is lowered, any other letter
    is raised. *)
Fixpoint title_go (previous_is_cased : bool) (s : string) : string :=
  match s with
  | EmptyString => EmptyString
  | String c s' =>
      if is_upper c || is_lower c
      then String (if previous_is_cased then to_lower c else to_upper c)
                  (title_go true s')
      else String c (title_go false s')
  end.
Definition title : string -> string := title_go false.

(** [sep.join(parts)] *)
Fixpoint join (sep : string) (parts : list string) : string :=
  match parts with
  | [] => ""
  | [p] => p
  | p :: rest => p +:+ sep +:+ join sep rest
  end.

Definition newline : ascii := ascii_of_nat 10.
Definition newline_str : string := String newline EmptyString.

(** [str(n)] for an integer *)
Definition str_of_Z (n : Z) : string := NilZero.string_of_int (Z.to_int n).

(** truthiness of a string *)
Definition truthy (s : string) : bool :=
  match s with EmptyString => false | _ => true end.

(** [enumerate(l)] *)
Fixpoint enumerate_from {A : Type} (start : nat) (l : list A) : list (nat * A) :=
  match l with
  | [] => []
  | x :: l' => (start, x) :: enumerate_from (S start) l'
  end.
Definition enumerate {A : Type} : list A -> list (nat * A) := enumerate_from 0.

(** Outcome of a call that may raise. *)
Inductive exn := AttributeError | ReError.
Inductive result (A : Type) :=
  | Returns (a : A)
  | Raises (e : exn)
  | Unmodelled.
Arguments Returns {A} a.
Arguments Raises {A} e.
Arguments Unmodelled {A}.

(** What a caller sees of a returned value through [f]. *)
Definition result_map {A B : Type} (f : A -> B) (r : result A) : result B :=
  match r with
  | Returns a => Returns (f a)
  | Raises e => Raises e
  | Unmodelled => Unmodelled
  end.

End Py.

(** ** Element trees ([xml.etree.ElementTree]) *)

Module ET.

#[warnings="-register-all"]
Inductive Element : Type :=
  Elem (tag : string) (attrib : gmap string string) (children : list Element).

Definition tag (e : Element) : string := let 'Elem t _ _ := e in t.
Definition attrib (e : Element) : gmap string string := let 'Elem _ a _ := e in a.
Definition children (e : Element) : list Element := let 'Elem _ _ c := e in c.

(** [elem.get(key)] and [elem.get(key, default)] *)
Definition get (e : Element) (key : string) : option string := attrib e !! key.
Definition get_default (e : Element) (key default : string) : string :=
  match get e key with Some v => v | None => default end.

(** The elements strictly below [e], in document order: what [.//*] selects
    from [e]. The element itself is not part of the selection. *)
Fixpoint descendants (e : Element) : list Element :=
  match e with
  | Elem _ _ cs => flat_map (fun c => c :: descendants c) cs
  end.

(** Path steps: [.//tag], then an optional predicate [[@key]] or
    [[@key='value']]. *)
Inductive predicate :=
  | Any
  | HasAttr (key : string)
  | AttrIs (key value : string).

Definition holds (p : predicate) (e : Element) : bool :=
  match p with
  | Any => true
  | HasAttr key => match get e key with Some _ => true | None => false end
  | AttrIs key value =>
      match get e key with Some v => String.eqb v value | None => false end
  end.

Definition selects (t : string) (p : predicate) (e : Element) : bool :=
  String.eqb (tag e) t && holds p e.

(** [elem.findall('.//t[p]')] *)
Definition findall (e : Element) (t : string) (p : predicate) : list Element :=
  List.filter (selects t p) (descendants e).

(** [elem.find('.//t[p]')] *)
Definition find (e : Element) (t : string) (p : predicate) : option Element :=
  head (findall e t p).

(** [elem.findall('.//t/c')]: the [c] children of every [t] below [elem]. *)
Definition findall_child (e : Element) (t c : string) : list Element :=
  flat_map (fun x => List.filter (fun y => String.eqb (tag y) c) (children x))
           (findall e t Any).

End ET.

Import Py ET.

(** A key of a dict literal: [d[key] = value]. Dicts of the parsers are
    [gmap]s keyed by strings. *)
Notation "'dict_set' k v d" := (<[ k := v ]> d)
  (at level 10, k at level 9, v at level 9, d at level 9, only parsing).

(** ** The workbook parser ([parsers/workbook_parser.py]) *)

Module WorkbookParser.

Record datasource_info := {
  ds_name : option string;
  ds_caption : option string;
  ds_inline : string;
  ds_connection : gmap string (option string)
}.

Record calculated_field := {
  cf_name : string;
  cf_internal_name : string;
  cf_formula : string;
  cf_datatype : string;
  cf_role : string;
  cf_type : string
}.

Record parameter_info := {
  par_name : string;
  par_caption : string;
  par_datatype : string;
  par_value : string;
  par_alias : string
}.

Record filter_info := {
  flt_column : string;
  flt_class : string;
  flt_field : string
}.

Record join_info := {
  join_type : string;
  join_connection : string;
  join_tables : gmap string string;
  join_condition : string
}.

Record workbook_metadata := {
  dashboard_name : string;
  datasources : list datasource_info;
  calculated_fields : list calculated_field;
  parameters : list parameter_info;
  filters : list filter_info;
  joins : list join_info;
  workbook_version : string
}.

(** [_extract_connection]: the first connection below the datasource. The
    fields are read with [conn.get(key)], which is [None] for a missing
    attribute; without a connection element the dict is empty. *)
Definition _extract_connection (datasource : Element) : gmap string (option string) :=
  match find datasource "connection" Any with
  | None => ∅
  | Some conn =>
      dict_set "authentication" (get conn "authentication")
      (dict_set "username" (get conn "username")
      (dict_set "schema" (get conn "schema")
      (dict_set "dbname" (get conn "dbname")
      (dict_set "server" (get conn "server")
      (dict_set "class" (get conn "class") ∅)))))
  end.

(** The guard of the datasource loop:
    [ds_name and (ds_name.startswith('Parameters') or ds_name == 'Sample File')] *)
Definition internal_datasource (ds_name : option string) : bool :=
  match ds_name with
  | None => false
  | Some n => truthy n && (startswith "Parameters" n || String.eqb n "Sample File")
  end.

(** The dict appended for a datasource that is kept. *)
Definition datasource_dict (ds : Element) : datasource_info :=
  let ds_name := get ds "name" in
  {| ds_name := ds_name;
     ds_caption := match get ds "caption" with
                   | Some c => Some c
                   | None => ds_name
                   end;
     ds_inline := get_default ds "inline" "false";
     ds_connection := _extract_connection ds |}.

Definition extract_datasources (root : Element) : list datasource_info :=
  fold_left
    (fun datasources ds =>
       if internal_datasource (get ds "name") then datasources
       else datasources ++ [datasource_dict ds])
    (findall root "datasource" (HasAttr "name")) [].

(** The test of the calculated-field loop:
    ['Calculated' in calc_name or col.find('.//calculation') is not None] *)
Definition has_calculation (col : Element) : bool :=
  match find col "calculation" Any with Some _ => true | None => false end.

Definition passes_calculated_test (col : Element) : bool :=
  contains "Calculated" (get_default col "name" "") || has_calculation col.

(** The dict appended for a column [col] with its calculation element. *)
Definition calculated_field_dict (col calculation : Element) : calculated_field :=
  let calc_name := get_default col "name" "" in
  {| cf_name := get_default col "caption" calc_name;
     cf_internal_name := calc_name;
     cf_formula := get_default calculation "formula" "";
     cf_datatype := get_default col "datatype" "unknown";
     cf_role := get_default col "role" "";
     cf_type := get_default col "type" "" |}.

Definition extract_calculated_fields (root : Element) : list calculated_field :=
  fold_left
    (fun fields col =>
       if negb (passes_calculated_test col) then fields
       else
         match find col "calculation" Any with
         | Some calculation => fields ++ [calculated_field_dict col calculation]
         | None => fields
         end)
    (findall root "column" (HasAttr "caption")) [].

Definition extract_parameters (root : Element) : list parameter_info :=
  fold_left
    (fun params param =>
       params ++
       [ {| par_name := get_default param "name" "";
            par_caption := get_default param "caption" (get_default param "name" "");
            par_datatype := get_default param "type" "";
            par_value := get_default param "value" "";
            par_alias := get_default param "alias" "" |} ])
    (findall root "parameter" Any) [].

Definition extract_filters (root : Element) : list filter_info :=
  fold_left
    (fun filters filter_elem =>
       let filter_info :=
         {| flt_column := get_default filter_elem "column" "";
            flt_class := get_default filter_elem "class" "";
            flt_field := get_default filter_elem "field" "" |} in
       if truthy (flt_column filter_info) || truthy (flt_field filter_info)
       then filters ++ [filter_info]
       else filters)
    (findall root "filter" Any) [].

(** [_extract_join_tables]: both keys start empty and are filled only when
    at least two table relations are nested in the join. *)
Definition _extract_join_tables (relation : Element) : gmap string string :=
  let tables : gmap string string := dict_set "right" "" (dict_set "left" "" ∅) in
  match findall relation "relation" (AttrIs "type" "table") with
  | t0 :: t1 :: _ =>
      dict_set "right" (get_default t1 "table" (get_default t1 "name" ""))
      (dict_set "left" (get_default t0 "table" (get_default t0 "name" "")) tables)
  | _ => tables
  end.

Definition _extract_join_clause (relation : Element) : string :=
  match find relation "clause" (AttrIs "type" "join") with
  | Some clause => get_default clause "expression" ""
  | None => get_default relation "expression" ""
  end.

Definition extract_joins (root : Element) : list join_info :=
  fold_left
    (fun joins relation =>
       joins ++
       [ {| join_type := get_default relation "join" "inner";
            join_connection := get_default relation "connection" "";
            join_tables := _extract_join_tables relation;
            join_condition := _extract_join_clause relation |} ])
    (findall root "relation" (AttrIs "type" "join")) [].

Definition parse_to_dict (root : Element) (dashboard_name : string) : workbook_metadata :=
  {| dashboard_name := dashboard_name;
     datasources := extract_datasources root;
     calculated_fields := extract_calculated_fields root;
     parameters := extract_parameters root;
     filters := extract_filters root;
     joins := extract_joins root;
     workbook_version := get_default root "version" "unknown" |}.

End WorkbookParser.

(** ** The prep-flow parser ([parsers/prep_flow_parser.py]) *)

Module PrepFlowParser.

Record input_info := {
  in_id : string;
  in_name : string;
  in_connection : gmap string string
}.

Record aggregation := {
  agg_name : string;
  agg_calculation : string;
  agg_source_field : string
}.

(** The key a step carries besides the common ones, chosen by its type. *)
Inductive step_detail :=
  | NoDetail
  | JoinType (join_type : string)
  | Aggregations (aggregations : list aggregation)
  | Condition (condition : gmap string string)
  | Operation (operation : gmap string string).

Record step_info := {
  step_number : Z;
  step_type : string;
  step_id : string;
  step_name : string;
  step_input_source : string;
  step_description : string;
  step_detail_of : step_detail
}.

Record join_input := {
  source : string;
  alias : string
}.

Record join_condition := {
  left_field : string;
  right_field : string;
  operator : string;
  left_source : string;
  right_source : string
}.

Record join_info := {
  join_id : string;
  join_name : string;
  join_type : string;
  join_inputs : gmap string join_input;
  join_conditions : list join_condition
}.

Record output_info := {
  out_id : string;
  out_name : string;
  out_input_source : string;
  out_connection : gmap string string
}.

Record prepflow_metadata := {
  flow_name : string;
  input_sources : list input_info;
  steps : list step_info;
  joins : list join_info;
  outputs : list output_info;
  flow_version : string
}.

(** [_extract_input_connection]: every field is read with
    [conn.get(key, '')]; without a connection element the dict is empty. *)
Definition _extract_input_connection (node : Element) : gmap string string :=
  match find node "connection" Any with
  | None => ∅
  | Some conn =>
      dict_set "table" (get_default conn "table-name" "")
      (dict_set "schema" (get_default conn "schema" "")
      (dict_set "dbname" (get_default conn "dbname" "")
      (dict_set "server" (get_default conn "server" "")
      (dict_set "class" (get_default conn "class" "") ∅))))
  end.

Definition extract_input_sources (root : Element) : list input_info :=
  fold_left
    (fun inputs input_node =>
       inputs ++
       [ {| in_id := get_default input_node "id" "";
            in_name := get_default input_node "name" "";
            in_connection := _extract_input_connection input_node |} ])
    (findall root "node" (AttrIs "type" "input")) [].

Definition _extract_aggregations (node : Element) : list aggregation :=
  fold_left
    (fun aggs field =>
       aggs ++
       [ {| agg_name := get_default field "name" "";
            agg_calculation := get_default field "calculation" "";
            agg_source_field := get_default field "source-field" "" |} ])
    (findall_child node "aggregations" "field") [].

Definition _extract_filter_condition (node : Element) : gmap string string :=
  match find node "condition" Any with
  | None => ∅
  | Some cond =>
      dict_set "value" (get_default cond "value" "")
      (dict_set "operator" (get_default cond "operator" "")
      (dict_set "field" (get_default cond "field" "") ∅))
  end.

Definition _extract_clean_operation (node : Element) : gmap string string :=
  match find node "operation" Any with
  | None => ∅
  | Some op =>
      dict_set "field" (get_default op "field" "")
      (dict_set "type" (get_default op "type" "") ∅)
  end.

(** The type-specific branch of the step loop. *)
Definition step_detail_for (node_type : string) (node : Element) : step_detail :=
  if String.eqb node_type "join" then JoinType (get_default node "join-type" "")
  else if String.eqb node_type "aggregate" then Aggregations (_extract_aggregations node)
  else if String.eqb node_type "filter" then Condition (_extract_filter_condition node)
  else if String.eqb node_type "clean" then Operation (_extract_clean_operation node)
  else NoDetail.

(** One pass of the step loop over [node], on the loop state
    [(steps, step_number)]. [not node_type] holds for a missing type and for
    an empty one. *)
Definition step_dict (step_number : Z) (node_type : string) (node : Element)
  : step_info :=
  {| step_number := step_number;
     step_type := node_type;
     step_id := get_default node "id" "";
     step_name := get_default node "name" "";
     step_input_source := get_default node "input" "";
     step_description := "";
     step_detail_of := step_detail_for node_type node |}.

Definition step_loop_body (state : list step_info * Z) (node : Element)
  : list step_info * Z :=
  let '(steps, step_number) := state in
  match get node "type" with
  | None => (steps, step_number)
  | Some node_type =>
      if negb (truthy node_type) then (steps, step_number)
      else
        let step_number := (step_number + 1)%Z in
        (steps ++ [step_dict step_number node_type node], step_number)
  end.

(** A node whose type attribute is present and not empty. *)
Definition has_type (node : Element) : bool :=
  match get node "type" with
  | Some node_type => truthy node_type
  | None => false
  end.

(** The type, id and name a step shows, and the ones its node carries. *)
Definition step_view (s : step_info) : string * string * string :=
  (step_type s, step_id s, step_name s).
Definition node_view (node : Element) : string * string * string :=
  (get_default node "type" "", get_default node "id" "", get_default node "name" "").

Definition extract_step_sequence (root : Element) : list step_info :=
  fst (fold_left step_loop_body (findall root "node" Any) ([], 0%Z)).

(** [_extract_join_inputs]: index 0 writes the key [left], every later index
    writes the key [right]. *)
Definition input_dict (inp : Element) : join_input :=
  {| source := get_default inp "source" "";
     alias := get_default inp "alias" "" |}.

Definition join_inputs_body (inputs : gmap string join_input) (item : nat * Element)
  : gmap string join_input :=
  let '(idx, inp) := item in
  let side := if Nat.eqb idx 0 then "left" else "right" in
  dict_set side (input_dict inp) inputs.

Definition _extract_join_inputs (join_node : Element) : gmap string join_input :=
  fold_left join_inputs_body (enumerate (findall join_node "input" Any)) ∅.

Definition _extract_join_conditions (join_node : Element) : list join_condition :=
  fold_left
    (fun conditions clause =>
       conditions ++
       [ {| left_field := get_default clause "left-field" "";
            right_field := get_default clause "right-field" "";
            operator := get_default clause "operator" "=";
            left_source := get_default clause "left-source" "";
            right_source := get_default clause "right-source" "" |} ])
    (findall join_node "join-clause" Any) [].

Definition extract_joins (root : Element) : list join_info :=
  fold_left
    (fun joins join_node =>
       joins ++
       [ {| join_id := get_default join_node "id" "";
            join_name := get_default join_node "name" "";
            join_type := get_default join_node "join-type" "inner";
            join_inputs := _extract_join_inputs join_node;
            join_conditions := _extract_join_conditions join_node |} ])
    (findall root "node" (AttrIs "type" "join")) [].

Definition _extract_output_connection (node : Element) : gmap string string :=
  match find node "connection" Any with
  | None => ∅
  | Some conn =>
      dict_set "table" (get_default conn "table-name" "")
      (dict_set "schema" (get_default conn "schema" "")
      (dict_set "dbname" (get_default conn "dbname" "")
      (dict_set "class" (get_default conn "class" "") ∅)))
  end.

Definition extract_outputs (root : Element) : list output_info :=
  fold_left
    (fun outputs output_node =>
       outputs ++
       [ {| out_id := get_default output_node "id" "";
            out_name := get_default output_node "name" "";
            out_input_source := get_default output_node "input" "";
            out_connection := _extract_output_connection output_node |} ])
    (findall root "node" (AttrIs "type" "output")) [].

Definition parse_to_dict (root : Element) (flow_name : string) : prepflow_metadata :=
  {| flow_name := flow_name;
     input_sources := extract_input_sources root;
     steps := extract_step_sequence root;
     joins := extract_joins root;
     outputs := extract_outputs root;
     flow_version := get_default root "version" "unknown" |}.

End PrepFlowParser.

(** ** The context manager ([core/context_manager.py]) *)

Module ContextManager.

Import WorkbookParser PrepFlowParser.

(** *** The historical issues table

    A cell of the spreadsheet is a text or is empty ([NaN] once loaded). A
    row of [to_dict('records')] maps every column name to its cell. *)
Inductive cell := CStr (s : string) | CNaN.

Record DataFrame := {
  columns : list string;
  records : list (gmap string cell)
}.

(** [df[column]]: the cells of one column, row by row. *)
Definition series (df : DataFrame) (column : string) : list cell :=
  map (fun row => default CNaN (row !! column)) (records df).

(** *** Regular expressions

    [Series.str.contains(pat, case=False, na=False)] leaves [regex] at its
    default [True]: [pat] is compiled as a regular expression with
    [re.IGNORECASE] and searched in every text cell. The fragment modelled
    here is the patterns made of ordinary characters and the wildcard [.],
    and the patterns that open with a repetition operator, which [re]
    refuses (nothing to repeat); any other pattern that uses a special
    character is [Unmodelled]. *)
Inductive re_atom :=
  | Lit (c : ascii)
  | Dot.

Definition re_special : string := "^$*+?{}[]\|()".
Definition re_repeat : string := "*+?".

Fixpoint re_atoms (pat : string) : result (list re_atom) :=
  match pat with
  | EmptyString => Returns []
  | String c pat' =>
      if contains (String c EmptyString) re_special then Unmodelled
      else
        match re_atoms pat' with
        | Returns atoms =>
            Returns ((if Ascii.eqb c "." then Dot else Lit c) :: atoms)
        | other => other
        end
  end.

(** [re.compile(pat, re.IGNORECASE)] *)
Definition re_compile (pat : string) : result (list re_atom) :=
  match pat with
  | String c _ =>
      if contains (String c EmptyString) re_repeat then Raises ReError
      else re_atoms pat
  | EmptyString => re_atoms pat
  end.

(** One atom against one character, ignoring case. The wildcard matches
    everything but a newline. *)
Definition atom_matches (a : re_atom) (x : ascii) : bool :=
  match a with
  | Lit c => Ascii.eqb (to_lower c) (to_lower x)
  | Dot => negb (Ascii.eqb x newline)
  end.

Fixpoint re_match_here (atoms : list re_atom) (s : string) : bool :=
  match atoms, s with
  | [], _ => true
  | a :: atoms', String x s' => atom_matches a x && re_match_here atoms' s'
  | _ :: _, EmptyString => false
  end.

(** [regex.search(s)] *)
Fixpoint re_search (atoms : list re_atom) (s : string) : bool :=
  re_match_here atoms s ||
  match s with
  | EmptyString => false
  | String _ s' => re_search atoms s'
  end.

(** The [.str] accessor is refused on a column that holds no text at all
    (a column of empty cells is loaded as a float column). *)
Definition is_text (c : cell) : bool :=
  match c with CStr _ => true | CNaN => false end.

(** [re.IGNORECASE] folds the case of every letter, and the case mapping
    here folds the ASCII letters: the search is modelled for a pattern and
    cells of ASCII text, and is [Unmodelled] for any other text. *)
Definition is_ascii (c : ascii) : bool := (nat_of_ascii c <? 128)%nat.

Fixpoint ascii_only (s : string) : bool :=
  match s with
  | EmptyString => true
  | String c s' => is_ascii c && ascii_only s'
  end.

Definition cell_ascii_only (c : cell) : bool :=
  match c with CStr s => ascii_only s | CNaN => true end.

Definition str_contains (col : list cell) (pat : string) : result (list bool) :=
  if negb (existsb is_text col) then Raises AttributeError
  else if negb (ascii_only pat && forallb cell_ascii_only col) then Unmodelled
  else
    match re_compile pat with
    | Returns atoms =>
        Returns (map (fun c => match c with
                               | CStr s => re_search atoms s
                               | CNaN => false
                               end) col)
    | Raises e => Raises e
    | Unmodelled => Unmodelled
    end.

(** [df[mask]] *)
Fixpoint select_rows {A : Type} (rows : list A) (mask : list bool) : list A :=
  match rows, mask with
  | r :: rows', b :: mask' =>
      if b then r :: select_rows rows' mask' else select_rows rows' mask'
  | _, _ => []
  end.

(** [df.head(n)]: the first [n] rows, or all but the last [-n] for a
    negative [n]. *)
Definition head_rows {A : Type} (n : Z) (rows : list A) : list A :=
  if (0 <=? n)%Z then firstn (Z.to_nat n) rows
  else firstn (length rows - Z.to_nat (- n)) rows.

(** *** State of the manager

    The stores are the two directories of parsed metadata, keyed by
    dashboard name; a file that is missing or unreadable is a missing key.
    [env_max_issues] is the integer value of [MAX_HISTORICAL_ISSUES] when the
    variable is set. *)
Record state := {
  workbooks : gmap string workbook_metadata;
  prep_flows : gmap string prepflow_metadata;
  issues_df : option DataFrame;
  env_max_issues : option Z
}.

Inductive metadata :=
  | Workbook (m : workbook_metadata)
  | PrepFlow (m : prepflow_metadata).

Definition load_dashboard_metadata (self : state) (dashboard_name dashboard_type : string)
  : option metadata :=
  if String.eqb dashboard_type "workbook"
  then Workbook <$> workbooks self !! dashboard_name
  else PrepFlow <$> prep_flows self !! dashboard_name.

Definition dashboard_column : string := "Dashboard/Workflow Name".

Definition get_relevant_issues (self : state) (dashboard_name : string) (limit : option Z)
  : result (list (gmap string cell)) :=
  match issues_df self with
  | None => Returns []
  | Some df =>
      if Nat.eqb (length (records df)) 0 then Returns []
      else
        let limit := match limit with
                     | Some l => l
                     | None => default 5%Z (env_max_issues self)
                     end in
        if negb (existsb (String.eqb dashboard_column) (columns df))
        then Returns []   (* KeyError, caught *)
        else
          match str_contains (series df dashboard_column) dashboard_name with
          | Returns mask => Returns (head_rows limit (select_rows (records df) mask))
          | Raises e => Raises e
          | Unmodelled => Unmodelled
          end
  end.

(** *** Formatting *)

(** [f"{x}"] for a value that is a string or [None], and for a cell. *)
Definition fmt_optional (x : option string) : string :=
  match x with Some s => s | None => "None" end.

Definition fmt_cell (c : cell) : string :=
  match c with CStr s => s | CNaN => "nan" end.

(** truthiness of [conn.get(key)] on a connection of optional strings; the
    value under a truthy key is what [conn[key]] then reads. *)
Definition truthy_field (conn : gmap string (option string)) (key : string)
  : option string :=
  match conn !! key with
  | Some (Some v) => if truthy v then Some v else None
  | _ => None
  end.

Definition format_datasource (ds : datasource_info) : string :=
  let conn := ds_connection ds in
  let conn_str := match conn !! "class" with
                  | Some v => fmt_optional v
                  | None => "N/A"
                  end in
  let conn_str := match truthy_field conn "dbname" with
                  | Some v => conn_str +:+ " - " +:+ v
                  | None => conn_str
                  end in
  let conn_str := match truthy_field conn "server" with
                  | Some v => conn_str +:+ " @ " +:+ v
                  | None => conn_str
                  end in
  "- **" +:+ fmt_optional (ds_caption ds) +:+ "**: " +:+ conn_str.

Definition format_calculated_field (field : calculated_field) : string :=
  "- **" +:+ cf_name field +:+ "**: `" +:+ cf_formula field +:+ "`".

Definition more_trailer (n : Z) : string :=
  "  _(... and " +:+ str_of_Z n +:+ " more)_".

Definition format_parameter (param : parameter_info) : string :=
  let value_str := if truthy (par_value param)
                   then " = " +:+ par_value param else "" in
  "- **" +:+ par_caption param +:+ "** (" +:+ par_datatype param +:+ ")" +:+ value_str.

(** A join appends its headline, then its condition when there is one. *)
Definition format_join (sections : list string) (join : WorkbookParser.join_info)
  : list string :=
  let tables := join_tables join in
  let left := default "Table1" (tables !! "left") in
  let right := default "Table2" (tables !! "right") in
  let sections :=
    sections ++ ["- **" +:+ upper (WorkbookParser.join_type join) +:+ " JOIN**: "
                 +:+ left +:+ " ↔ " +:+ right] in
  if truthy (WorkbookParser.join_condition join)
  then sections ++ ["  - Condition: `" +:+ WorkbookParser.join_condition join +:+ "`"]
  else sections.

Definition format_filter (filt : filter_info) : string :=
  let col := if truthy (flt_column filt) then flt_column filt else flt_field filt in
  "- " +:+ col +:+ " (" +:+ flt_class filt +:+ ")".

(** truthiness of a list *)
Definition nonempty {A : Type} (l : list A) : bool :=
  match l with [] => false | _ => true end.

(** [for x in xs: sections.append(f(x))] *)
Definition append_each {A : Type} (f : A -> string) (xs : list A)
  (sections : list string) : list string :=
  fold_left (fun sections x => sections ++ [f x]) xs sections.

(** The lines the workbook formatter collects, before they are joined. *)
Definition workbook_sections (metadata : workbook_metadata) : list string :=
  let sections := ["# Tableau Workbook: " +:+ dashboard_name metadata +:+ newline_str] in
  (* Data Sources *)
  let sections :=
    if nonempty (datasources metadata)
    then append_each format_datasource (datasources metadata)
           (sections ++ ["## Data Sources:"])
    else sections in
  (* Calculated Fields *)
  let sections :=
    if nonempty (calculated_fields metadata)
    then
      let sections :=
        append_each format_calculated_field (firstn 10 (calculated_fields metadata))
          (sections ++ [newline_str +:+ "## Calculated Fields:"]) in
      if (10 <? length (calculated_fields metadata))%nat
      then sections ++
           [more_trailer (Z.of_nat (length (calculated_fields metadata)) - 10)]
      else sections
    else sections in
  (* Parameters *)
  let sections :=
    if nonempty (parameters metadata)
    then append_each format_parameter (parameters metadata)
           (sections ++ [newline_str +:+ "## Parameters:"])
    else sections in
  (* Joins *)
  let sections :=
    if nonempty (WorkbookParser.joins metadata)
    then fold_left format_join (WorkbookParser.joins metadata)
           (sections ++ [newline_str +:+ "## Joins:"])
    else sections in
  (* Filters *)
  let sections :=
    if nonempty (filters metadata)
    then append_each format_filter (firstn 5 (filters metadata))
           (sections ++ [newline_str +:+ "## Active Filters:"])
    else sections in
  sections.

Definition _format_workbook_metadata (metadata : workbook_metadata) : string :=
  join newline_str (workbook_sections metadata).

Definition format_input_source (inp : input_info) : string :=
  let conn := in_connection inp in
  let table_info := default "N/A" (conn !! "table") in
  let table_info :=
    match conn !! "dbname" with
    | Some v => if truthy v then v +:+ "." +:+ table_info else table_info
    | None => table_info
    end in
  "- **" +:+ in_name inp +:+ "**: " +:+ table_info.

Definition format_step (step : step_info) : string :=
  let step_desc :=
    str_of_Z (step_number step) +:+ ". **" +:+ upper (step_type step) +:+ "**: "
    +:+ step_name step in
  match step_detail_of step with
  | JoinType join_type =>
      if truthy join_type then step_desc +:+ " (" +:+ join_type +:+ " join)"
      else step_desc
  | _ => step_desc
  end.

Definition format_condition (cond : PrepFlowParser.join_condition) : string :=
  "  - ON: " +:+ left_field cond +:+ " " +:+ operator cond +:+ " " +:+ right_field cond.

Definition format_flow_join (sections : list string) (join : PrepFlowParser.join_info)
  : list string :=
  let inputs := join_inputs join in
  let left_alias := match inputs !! "left" with Some i => alias i | None => "Left" end in
  let right_alias := match inputs !! "right" with Some i => alias i | None => "Right" end in
  append_each format_condition (join_conditions join)
    (sections ++ ["- **" +:+ join_name join +:+ "** (" +:+ PrepFlowParser.join_type join
                  +:+ "): " +:+ left_alias +:+ " + " +:+ right_alias]).

Definition format_output (out : output_info) : string :=
  let conn := out_connection out in
  let dest := match conn !! "table" with
              | Some v => v
              | None => default "Unknown" (conn !! "dbname")
              end in
  "- **" +:+ out_name out +:+ "** → " +:+ dest.

Definition prepflow_sections (metadata : prepflow_metadata) : list string :=
  let sections := ["# Tableau Prep Flow: " +:+ flow_name metadata +:+ newline_str] in
  (* Input Sources *)
  let sections :=
    if nonempty (input_sources metadata)
    then append_each format_input_source (input_sources metadata)
           (sections ++ ["## Input Sources:"])
    else sections in
  (* Step Sequence *)
  let sections :=
    if nonempty (steps metadata)
    then append_each format_step (steps metadata)
           (sections ++ [newline_str +:+ "## Transformation Steps:"])
    else sections in
  (* Joins *)
  let sections :=
    if nonempty (PrepFlowParser.joins metadata)
    then fold_left format_flow_join (PrepFlowParser.joins metadata)
           (sections ++ [newline_str +:+ "## Join Details:"])
    else sections in
  (* Outputs *)
  let sections :=
    if nonempty (outputs metadata)
    then append_each format_output (outputs metadata)
           (sections ++ [newline_str +:+ "## Output Destinations:"])
    else sections in
  sections.

Definition _format_prepflow_metadata (metadata : prepflow_metadata) : string :=
  join newline_str (prepflow_sections metadata).

(** [_format_metadata] picks the formatter by [dashboard_type]. A record is
    read from the store of its own type, so a record of the other kind is
    left [Unmodelled]. *)
Definition _format_metadata (metadata : metadata) (dashboard_type : string)
  : result string :=
  if String.eqb dashboard_type "workbook"
  then match metadata with
       | Workbook m => Returns (_format_workbook_metadata m)
       | PrepFlow _ => Unmodelled
       end
  else match metadata with
       | PrepFlow m => Returns (_format_prepflow_metadata m)
       | Workbook _ => Unmodelled
       end.

(** [issue.get(key, 'N/A')], formatted *)
Definition issue_field (issue : gmap string cell) (key : string) : string :=
  match issue !! key with Some c => fmt_cell c | None => "N/A" end.

Definition issue_sections (issues : list (gmap string cell)) : list string :=
  let sections := ["# Historical Issues & Resolutions" +:+ newline_str] in
  if negb (nonempty issues)
  then sections ++ ["_No previous issues found for this dashboard._"]
  else
    let sections :=
      sections ++ ["_Found " +:+ str_of_Z (Z.of_nat (length issues))
                   +:+ " similar past issue(s):_" +:+ newline_str] in
    fold_left
      (fun sections '(i, issue) =>
         sections ++
         [ "## Issue " +:+ str_of_Z (Z.of_nat i) +:+ ":";
           "**Description:** " +:+ issue_field issue "Issue Description";
           "**Root Cause:** " +:+ issue_field issue "Root Cause";
           "**Resolution:** " +:+ issue_field issue "Resolution";
           "" ])
      (enumerate_from 1 issues) sections.

Definition _format_issues (issues : list (gmap string cell)) : string :=
  join newline_str (issue_sections issues).

Definition separator : string :=
  newline_str +:+ newline_str +:+ "---" +:+ newline_str +:+ newline_str.

Definition no_metadata_placeholder (dashboard_name dashboard_type : string) : string :=
  "# " +:+ title (replace_char "_" " " dashboard_type) +:+ ": " +:+ dashboard_name
  +:+ newline_str +:+ newline_str +:+ "(No metadata available)".

Definition no_issues_placeholder : string :=
  "# Historical Issues" +:+ newline_str +:+ newline_str
  +:+ "No previous issues found for this dashboard.".

(** The two parts [build_context_summary] collects once the record and the
    issues are at hand. *)
Definition context_parts (metadata : option metadata) (issues : list (gmap string cell))
  (dashboard_name dashboard_type : string) : result (list string) :=
  let context_parts : list string := [] in
  (* 1. Dashboard/Flow Metadata *)
  let first_part :=
    match metadata with
    | Some m => _format_metadata m dashboard_type
    | None => Returns (no_metadata_placeholder dashboard_name dashboard_type)
    end in
  match first_part with
  | Returns part =>
      let context_parts := context_parts ++ [part] in
      (* 2. Historical Issues *)
      let context_parts :=
        if nonempty issues
        then context_parts ++ [_format_issues issues]
        else context_parts ++ [no_issues_placeholder] in
      Returns context_parts
  | Raises e => Raises e
  | Unmodelled => Unmodelled
  end.

Definition assemble (metadata : option metadata) (issues : list (gmap string cell))
  (dashboard_name dashboard_type : string) : result string :=
  match context_parts metadata issues dashboard_name dashboard_type with
  | Returns parts => Returns (join separator parts)
  | Raises e => Raises e
  | Unmodelled => Unmodelled
  end.

Definition build_context_summary (self : state) (dashboard_name dashboard_type : string)
  : result string :=
  let metadata := load_dashboard_metadata self dashboard_name dashboard_type in
  match get_relevant_issues self dashboard_name None with
  | Returns issues => assemble metadata issues dashboard_name dashboard_type
  | Raises e => Raises e
  | Unmodelled => Unmodelled
  end.

(** *** The layout the formatters are compared with

    A sub-section is its header followed by its lines, and is left out when
    its collection is empty. The lines of the calculated fields are the
    bullets of the first ten, then one trailer with the count of the rest
    when there are more than ten. *)
Definition sub_section {A : Type} (collection : list A) (header : string)
  (lines : list string) : list string :=
  if nonempty collection then header :: lines else [].

Definition calculated_field_lines (fields : list calculated_field) : list string :=
  map format_calculated_field (firstn 10 fields)
  ++ (if (10 <? length fields)%nat
      then [more_trailer (Z.of_nat (length fields) - 10)]
      else []).

(** A name made of ordinary characters only: no character that is special
    in a regular expression. *)
Fixpoint plain (pat : string) : bool :=
  match pat with
  | EmptyString => true
  | String c pat' =>
      negb (contains (String c EmptyString) re_special)
      && negb (Ascii.eqb c ".") && plain pat'
  end.

(** A row whose dashboard name is a text that contains [name], whatever the
    case of the letters. *)
Definition names_dashboard (name : string) (row : gmap string cell) : bool :=
  match row !! dashboard_column with
  | Some (CStr s) => contains (lower name) (lower s)
  | _ => false
  end.

End ContextManager.

(** ** Sample documents *)

Module Samples.

(** A captioned column whose internal name says [Calculated] but which has
    no calculation element below it. *)
Definition name_only_column : Element :=
  Elem "column" {[ "caption" := "Margin"; "name" := "[Calculated_Margin]" ]} [].

Definition name_only_workbook : Element :=
  Elem "workbook" ∅ [Elem "datasource" {[ "name" := "Sales" ]} [name_only_column]].

(** A captioned column with a calculation element. *)
Definition calculated_column : Element :=
  Elem "column" {[ "caption" := "Profit Margin"; "name" := "[Calculated_Profit_Margin]" ]}
       [Elem "calculation" {[ "formula" := "[Profit] / [Sales]" ]} []].

(** A datasource whose connection carries a class and nothing else, and one
    without any connection element. *)
Definition class_only_datasource : Element :=
  Elem "datasource" {[ "name" := "Sales" ]}
       [Elem "connection" {[ "class" := "sqlserver" ]} []].

Definition unconnected_datasource : Element :=
  Elem "datasource" {[ "name" := "Sales" ]} [].

Definition unconnected_input : Element :=
  Elem "node" {[ "type" := "input"; "name" := "Orders" ]} [].

(** The join of the generated sample workbook: both tables carry a [table]
    and a [name] attribute. *)
Definition orders_clause : string := "[Orders].[CustomerID] = [Customers].[CustomerID]".

Definition sample_join : Element :=
  Elem "relation" {[ "type" := "join"; "join" := "inner"; "connection" := "sqlserver" ]}
    [ Elem "relation" {[ "type" := "table"; "table" := "[dbo].[Orders]"; "name" := "Orders" ]} [];
      Elem "relation" {[ "type" := "table"; "table" := "[dbo].[Customers]"; "name" := "Customers" ]} [];
      Elem "clause" {[ "type" := "join"; "expression" := orders_clause ]} [] ].

Definition sample_workbook : Element :=
  Elem "workbook" {[ "version" := "18.1" ]}
    [ Elem "datasources" ∅
        [ Elem "datasource" {[ "name" := "Parameters" ]} [];
          Elem "datasource" {[ "name" := "Sales Data"; "caption" := "Sales Database" ]}
            [ Elem "connection" {[ "class" := "sqlserver"; "dbname" := "SalesDB" ]} [];
              calculated_column;
              sample_join ];
          Elem "datasource" {[ "name" := "Sample File" ]} [] ] ].

(** The same join with tables that carry a [name] only. *)
Definition named_join : Element :=
  Elem "relation" {[ "type" := "join" ]}
    [ Elem "relation" {[ "type" := "table"; "name" := "Orders" ]} [];
      Elem "relation" {[ "type" := "table"; "name" := "Customers" ]} [];
      Elem "clause" {[ "type" := "join"; "expression" := orders_clause ]} [] ].

(** A workbook of [n] calculated columns. *)
Definition many_columns (n : nat) : Element :=
  Elem "workbook" ∅ [Elem "datasource" {[ "name" := "Sales" ]} (repeat calculated_column n)].

(** A join whose clause has no expression, on a relation that has one. *)
Definition bare_clause_join : Element :=
  Elem "relation" {[ "type" := "join"; "expression" := "[A].[id] = [B].[id]" ]}
    [ Elem "clause" {[ "type" := "join" ]} [] ].

(** A join node of a prep flow with three inputs. *)
Definition three_input_join : Element :=
  Elem "node" {[ "type" := "join"; "id" := "node4" ]}
    [ Elem "input" {[ "source" := "node1"; "alias" := "A" ]} [];
      Elem "input" {[ "source" := "node2"; "alias" := "B" ]} [];
      Elem "input" {[ "source" := "node3"; "alias" := "C" ]} [] ].

(** A flow with an untyped node between typed ones, whose ids do not follow
    the traversal. *)
Definition sample_flow : Element :=
  Elem "datasource" ∅
    [ Elem "process" ∅
        [ Elem "node" {[ "type" := "input"; "id" := "node7" ]} [];
          Elem "node" {[ "id" := "node2" ]} [];
          Elem "node" {[ "type" := ""; "id" := "node3" ]} [];
          Elem "node" {[ "type" := "clean"; "id" := "node1" ]} [] ] ].

(** Thirteen calculated fields [F1] ... [F13]. *)
Definition thirteen_fields : list WorkbookParser.calculated_field :=
  map (fun i => {| WorkbookParser.cf_name := "F" +:+ str_of_Z (Z.of_nat i);
                   WorkbookParser.cf_internal_name := "";
                   WorkbookParser.cf_formula := "1";
                   WorkbookParser.cf_datatype := "real";
                   WorkbookParser.cf_role := "";
                   WorkbookParser.cf_type := "" |})
      (seq 1 13).

Definition thirteen_field_workbook : WorkbookParser.workbook_metadata :=
  {| WorkbookParser.dashboard_name := "sales_dashboard";
     WorkbookParser.datasources := [];
     WorkbookParser.calculated_fields := thirteen_fields;
     WorkbookParser.parameters := [];
     WorkbookParser.filters := [];
     WorkbookParser.joins := [];
     WorkbookParser.workbook_version := "18.1" |}.

(** A table of issues: five rows name the sales dashboard in one case or
    another, one names another dashboard, one has no name. *)
Definition issue_row (name : ContextManager.cell) (description : string)
  : gmap string ContextManager.cell :=
  {[ "Dashboard/Workflow Name" := name;
     "Issue Description" := ContextManager.CStr description;
     "Root Cause" := ContextManager.CStr "stale extract";
     "Resolution" := ContextManager.CStr "refreshed" ]}.

Definition issues_table : ContextManager.DataFrame :=
  {| ContextManager.columns :=
       ["Dashboard/Workflow Name"; "Issue Description"; "Root Cause"; "Resolution"];
     ContextManager.records :=
       [ issue_row (ContextManager.CStr "sales_dashboard") "one";
         issue_row (ContextManager.CStr "inventory") "two";
         issue_row (ContextManager.CStr "Sales_Dashboard v2") "three";
         issue_row ContextManager.CNaN "four";
         issue_row (ContextManager.CStr "EMEA SALES_DASHBOARD") "five";
         issue_row (ContextManager.CStr "sales_dashboard_old") "six";
         issue_row (ContextManager.CStr "my sales_dashboard") "seven" ] |}.

(** The descriptions of the rows a lookup returns. *)
Definition descriptions (r : result (list (gmap string ContextManager.cell)))
  : result (list (option ContextManager.cell)) :=
  result_map (map (fun row : gmap string ContextManager.cell => row !! "Issue Description")) r.

Definition manager : ContextManager.state :=
  {| ContextManager.workbooks := {[ "sales_dashboard" := thirteen_field_workbook ]};
     ContextManager.prep_flows := ∅;
     ContextManager.issues_df := Some issues_table;
     ContextManager.env_max_issues := None |}.

End Samples.

(** ** The prompt builder ([core/prompt_builder.py]) *)

Module PromptBuilder.

(** The lines of [SYSTEM_PROMPT_TEMPLATE]. *)
Definition SYSTEM_PROMPT_LINES : list string :=
  [
    "You are an expert Tableau troubleshooting assistant for Deutsche Bank's internal team.";
    "";
    "Your role is to help users diagnose and resolve issues with Tableau Dashboards and Prep Flows.";
    "";
    "You have access to:";
    "1. Complete technical metadata about the dashboard/flow (data sources, calculated fields, joins, parameters, filters, etc.)";
    "2. Historical issues and their resolutions from past troubleshooting sessions";
    "";
    "Guidelines:";
    "- Provide clear, actionable troubleshooting steps";
    "- Reference specific components from the metadata when relevant (e.g., calculated field names, data sources, parameters)";
    "- Draw insights from similar historical issues when applicable";
    "- If you're uncertain, suggest diagnostic steps to gather more information";
    "- Keep responses concise but comprehensive";
    "- Use bullet points and numbered lists for multi-step solutions";
    "- Always be professional and helpful";
    "";
    "When answering:";
    "1. Acknowledge the user's issue";
    "2. Identify potential root causes based on the context provided";
    "3. Provide step-by-step resolution or troubleshooting steps";
    "4. Reference similar past issues if relevant";
    "5. Suggest verification steps to confirm the fix worked";
    "";
    "Remember: You're helping colleagues troubleshoot production dashboards, so accuracy and clarity are critical."
  ].

Definition SYSTEM_PROMPT_TEMPLATE : string := join newline_str SYSTEM_PROMPT_LINES.

(** [USER_PROMPT_TEMPLATE.format(context=context, user_query=user_query)]:
    the two fields are put in as they are. *)
Definition USER_PROMPT (context user_query : string) : string :=
  "Dashboard/Flow Context:" +:+ newline_str +:+ context +:+ newline_str +:+ newline_str
  +:+ "---" +:+ newline_str +:+ newline_str +:+ "User's Issue:" +:+ newline_str
  +:+ user_query +:+ newline_str +:+ newline_str
  +:+ "Please provide troubleshooting guidance based on the context above.".

(** The builder holds its system prompt; [env_max_chat_history] is the
    integer value of [MAX_CHAT_HISTORY] when the variable is set. *)
Record state := {
  system_prompt : string;
  env_max_chat_history : option Z
}.

(** [__init__]: [system_prompt or self.SYSTEM_PROMPT_TEMPLATE] *)
Definition init (system_prompt : option string) (env : option Z) : state :=
  {| system_prompt := match system_prompt with
                      | Some s => if truthy s then s else SYSTEM_PROMPT_TEMPLATE
                      | None => SYSTEM_PROMPT_TEMPLATE
                      end;
     env_max_chat_history := env |}.

Record chat_entry := {
  role : string;
  content : string
}.

(** [s[:n]] *)
Fixpoint str_take (n : nat) (s : string) : string :=
  match n, s with
  | S n', String c s' => String c (str_take n' s')
  | _, _ => EmptyString
  end.

(** [l[start:]] for an integer [start]: a negative start counts from the
    end and stops at the first item. *)
Definition slice_from {A : Type} (start : Z) (l : list A) : list A :=
  if (start <? 0)%Z
  then skipn (length l - Z.to_nat (- start)) l
  else skipn (Z.to_nat start) l.

(** [chat_history[-max_history:] if len(chat_history) > max_history else chat_history] *)
Definition recent_history (max_history : Z) (chat_history : list chat_entry)
  : list chat_entry :=
  if (max_history <? Z.of_nat (length chat_history))%Z
  then slice_from (- max_history) chat_history
  else chat_history.

(** The content of an entry as it is shown: a message of more than 500
    characters is cut to 497 and marked. *)
Definition shown_content (content : string) : string :=
  if (500 <? String.length content)%nat
  then str_take 497 content +:+ "..."
  else content.

Definition history_line (entry : chat_entry) : string :=
  let role := if String.eqb (role entry) "user" then "User" else "Assistant" in
  newline_str +:+ role +:+ ": " +:+ shown_content (content entry).

(** The list [formatted] that [_format_chat_history] joins. *)
Definition history_lines (self : state) (chat_history : list chat_entry) : list string :=
  let max_history := default 4%Z (env_max_chat_history self) in
  let recent_history := recent_history max_history chat_history in
  fold_left (fun formatted entry => formatted ++ [history_line entry])
            recent_history ["Previous Conversation:"].

Definition _format_chat_history (self : state) (chat_history : list chat_entry) : string :=
  join newline_str (history_lines self chat_history).

Record prompt := {
  system : string;
  user : string
}.

Definition build_prompt (self : state) (context user_query : string)
  (chat_history : option (list chat_entry)) : prompt :=
  let user_message := USER_PROMPT context user_query in
  let user_message :=
    match chat_history with
    | Some (entry :: rest) =>
        _format_chat_history self (entry :: rest)
        +:+ newline_str +:+ newline_str +:+ "---" +:+ newline_str +:+ newline_str
        +:+ user_message
    | _ => user_message
    end in
  {| system := system_prompt self; user := user_message |}.

End PromptBuilder.

(** ** Further sample data *)

Module MoreSamples.

(** A flow with two inputs, a join of them with one clause, an aggregate and
    an output. *)
Definition orders_flow : Element :=
  Elem "datasource" {[ "version" := "18.1" ]}
    [ Elem "process" ∅
        [ Elem "node" {[ "type" := "input"; "id" := "node1"; "name" := "Customers" ]}
            [ Elem "connection" {[ "class" := "sqlserver"; "table-name" := "Customers" ]} [] ];
          Elem "node" {[ "type" := "input"; "id" := "node2"; "name" := "Orders" ]} [];
          Elem "node" {[ "id" := "draft" ]} [];
          Elem "node" {[ "type" := "join"; "id" := "node3"; "name" := "Join";
                         "join-type" := "left" ]}
            [ Elem "input" {[ "source" := "node1"; "alias" := "C" ]} [];
              Elem "input" {[ "source" := "node2"; "alias" := "O" ]} [];
              Elem "join-conditions" ∅
                [ Elem "join-clause" {[ "left-field" := "id"; "right-field" := "cid" ]} [] ] ];
          Elem "node" {[ "type" := "output"; "id" := "node4"; "name" := "Out";
                         "input" := "node3" ]} [] ] ].

(** A workbook with a filter that names nothing, one that names a column and
    one that names a field. *)
Definition filtered_workbook : Element :=
  Elem "workbook" ∅
    [ Elem "worksheet" {[ "name" := "Overview" ]}
        [ Elem "filter" {[ "class" := "categorical" ]} [];
          Elem "filter" {[ "class" := "categorical"; "column" := "[Region]" ]} [];
          Elem "filter" {[ "field" := "[Order Date]" ]} [] ];
      Elem "parameter" {[ "name" := "Start"; "type" := "date" ]} [] ].

(** A manager whose table of issues was not loaded. *)
Definition manager_without_table : ContextManager.state :=
  {| ContextManager.workbooks := ∅;
     ContextManager.prep_flows := ∅;
     ContextManager.issues_df := None;
     ContextManager.env_max_issues := None |}.

(** A conversation of six short turns, and a message of 600 characters. *)
Definition turn (who text : string) : PromptBuilder.chat_entry :=
  {| PromptBuilder.role := who; PromptBuilder.content := text |}.

Definition six_turns : list PromptBuilder.chat_entry :=
  [ turn "user" "q1"; turn "assistant" "a1"; turn "user" "q2";
    turn "assistant" "a2"; turn "user" "q3"; turn "assistant" "a3" ].

Fixpoint repeat_char (c : ascii) (n : nat) : string :=
  match n with
  | O => EmptyString
  | S n' => String c (repeat_char c n')
  end.

Definition long_message : string := repeat_char "x" 600.

Definition builder : PromptBuilder.state := PromptBuilder.init None None.

(** A table whose rows have no dashboard name, and its manager. *)
Definition blank_names_table : ContextManager.DataFrame :=
  {| ContextManager.columns := ["Dashboard/Workflow Name"; "Issue Description"];
     ContextManager.records :=
       [ {[ "Dashboard/Workflow Name" := ContextManager.CNaN;
            "Issue Description" := ContextManager.CStr "one" ]};
         {[ "Dashboard/Workflow Name" := ContextManager.CNaN;
            "Issue Description" := ContextManager.CStr "two" ]} ] |}.

Definition blank_names_manager : ContextManager.state :=
  {| ContextManager.workbooks := ∅;
     ContextManager.prep_flows := ∅;
     ContextManager.issues_df := Some blank_names_table;
     ContextManager.env_max_issues := None |}.

(** A table of one column: two rows name [sales] in one case or another, one
    names another dashboard, one has no name. *)
Definition name_row (name : ContextManager.cell) : gmap string ContextManager.cell :=
  {[ "Dashboard/Workflow Name" := name ]}.

Definition names_table : ContextManager.DataFrame :=
  {| ContextManager.columns := ["Dashboard/Workflow Name"];
     ContextManager.records :=
       [ name_row (ContextManager.CStr "stock");
         name_row (ContextManager.CStr "Sales EU");
         name_row ContextManager.CNaN;
         name_row (ContextManager.CStr "sales us");
         name_row (ContextManager.CStr "SALES") ] |}.

Definition names_manager : ContextManager.state :=
  {| ContextManager.workbooks := ∅;
     ContextManager.prep_flows := ∅;
     ContextManager.issues_df := Some names_table;
     ContextManager.env_max_issues := None |}.

(** A table of one row and one column, and its manager. *)
Definition tiny_table : ContextManager.DataFrame :=
  {| ContextManager.columns := ["Dashboard/Workflow Name"];
     ContextManager.records :=
       [ {[ "Dashboard/Workflow Name" := ContextManager.CStr "sales" ]} ] |}.

Definition tiny_manager : ContextManager.state :=
  {| ContextManager.workbooks := ∅;
     ContextManager.prep_flows := ∅;
     ContextManager.issues_df := Some tiny_table;
     ContextManager.env_max_issues := None |}.

End MoreSamples.

(** ** Loops that collect into a list *)

Section Loops.
Context {A B : Type}.

(** A loop whose body appends at most one item per element collects the
    items of the elements that yield one, in order. *)
Lemma fold_left_collect (body : list B -> A -> list B) (g : A -> option B) :
  (forall acc x, body acc x = acc ++ option_list (g x)) ->
  forall l acc, fold_left body l acc = acc ++ omap g l.
Proof.
  intros Hbody l. induction l as [|x l IH]; intros acc; simpl.
  - by rewrite app_nil_r.
  - rewrite Hbody, IH. destruct (g x); simpl.
    + by rewrite <- app_assoc.
    + by rewrite app_nil_r.
Qed.

(** A loop whose body appends one item per element is a [map]. *)
Lemma fold_left_append_map (f : A -> B) l acc :
  fold_left (fun acc x => acc ++ [f x]) l acc = acc ++ map f l.
Proof.
  revert acc. induction l as [|x l IH]; intros acc; simpl.
  - by rewrite app_nil_r.
  - rewrite IH. by rewrite <- app_assoc.
Qed.

(** A loop whose body appends a block of items per element is a
    [flat_map]. *)
Lemma fold_left_append_blocks (body : list B -> A -> list B) (f : A -> list B) :
  (forall acc x, body acc x = acc ++ f x) ->
  forall l acc, fold_left body l acc = acc ++ flat_map f l.
Proof.
  intros Hbody l. induction l as [|x l IH]; intros acc; simpl.
  - by rewrite app_nil_r.
  - rewrite Hbody, IH. by rewrite <- app_assoc.
Qed.

Lemma omap_filter_map (keep : A -> bool) (f : A -> B) (l : list A) :
  omap (fun x => if keep x then Some (f x) else None) l = map f (List.filter keep l).
Proof.
  induction l as [|x l IH]; simpl; [done|].
  destruct (keep x); simpl; by rewrite <- IH.
Qed.
End Loops.

(** ** Facts on strings *)

Section StringFacts.

Lemma startswith_prefix (p s : string) :
  startswith p s = true <-> exists t, s = p +:+ t.
Proof.
  revert s. induction p as [|a p IH]; intros s; simpl.
  - split; [intros _; by exists s | done].
  - destruct s as [|b s].
    + split; [done | intros [t Ht]; discriminate].
    + destruct (Ascii.eqb a b) eqn:E.
      * apply Ascii.eqb_eq in E as ->. rewrite IH. split.
        -- intros [t ->]. by exists t.
        -- intros [t Ht]. injection Ht as ->. by exists t.
      * split; [done|]. intros [t Ht]. injection Ht as -> _.
        by rewrite Ascii.eqb_refl in E.
Qed.

Lemma contains_here (sub b : string) : contains sub (sub +:+ b) = true.
Proof.
  assert (startswith sub (sub +:+ b) = true) as H
    by (apply startswith_prefix; by exists b).
  destruct (sub +:+ b); simpl in *; by rewrite H.
Qed.

Lemma contains_skip (sub a s : string) :
  contains sub s = true -> contains sub (a +:+ s) = true.
Proof.
  intros H. induction a as [|c a IH]; simpl; [done|].
  rewrite IH. apply orb_true_r.
Qed.

Lemma join_cons_nonempty (sep p : string) (rest : list string) :
  p <> "" -> join sep (p :: rest) <> "".
Proof.
  intros Hp. destruct p as [|c p]; [done|].
  simpl. destruct rest; simpl; done.
Qed.

Lemma join_pair (sep a b : string) : join sep [a; b] = a +:+ sep +:+ b.
Proof. done. Qed.

End StringFacts.

(** ** Properties of the workbook parser *)

Section WorkbookFacts.
Import WorkbookParser.

Lemma findall_selects root t p e :
  In e (findall root t p) -> selects t p e = true.
Proof. unfold findall. intros H. by apply filter_In in H as [_ H]. Qed.

Lemma findall_has_attr root t key e :
  In e (findall root t (HasAttr key)) -> exists v, get e key = Some v.
Proof.
  intros H. apply findall_selects in H. unfold selects in H.
  apply andb_true_iff in H as [_ H]. simpl in H.
  destruct (get e key) as [v|]; [by exists v | done].
Qed.

Lemma internal_datasource_reserved (n : string) :
  internal_datasource (Some n) = true <->
  (exists t, n = "Parameters" +:+ t) \/ n = "Sample File".
Proof.
  unfold internal_datasource. rewrite andb_true_iff, orb_true_iff.
  rewrite startswith_prefix, String.eqb_eq. split.
  - intros [_ H]. exact H.
  - intros H. split; [|exact H].
    destruct H as [[t ->] | ->]; done.
Qed.

Lemma extract_datasources_kept (root : Element) :
  extract_datasources root =
  omap (fun ds => if internal_datasource (get ds "name") then None
                  else Some (datasource_dict ds))
       (findall root "datasource" (HasAttr "name")).
Proof.
  unfold extract_datasources.
  rewrite fold_left_collect with
    (g := fun ds => if internal_datasource (get ds "name") then None
                    else Some (datasource_dict ds)); [done|].
  intros acc ds. destruct (internal_datasource (get ds "name")); simpl; [|done].
  by rewrite app_nil_r.
Qed.

Lemma extract_calculated_fields_kept (root : Element) :
  extract_calculated_fields root =
  omap (fun col => calculated_field_dict col <$> find col "calculation" Any)
       (findall root "column" (HasAttr "caption")).
Proof.
  unfold extract_calculated_fields.
  rewrite fold_left_collect with
    (g := fun col => calculated_field_dict col <$> find col "calculation" Any); [done|].
  intros acc col. unfold passes_calculated_test, has_calculation.
  destruct (find col "calculation" Any) as [calculation|]; simpl.
  - by rewrite orb_true_r.
  - rewrite app_nil_r. by destruct (negb _).
Qed.

Lemma extract_joins_map (root : Element) :
  extract_joins root =
  map (fun relation =>
         {| join_type := get_default relation "join" "inner";
            join_connection := get_default relation "connection" "";
            join_tables := _extract_join_tables relation;
            join_condition := _extract_join_clause relation |})
      (findall root "relation" (AttrIs "type" "join")).
Proof. unfold extract_joins. by rewrite fold_left_append_map. Qed.

Lemma Forall2_map_r {X Y : Type} (P : X -> Y -> Prop) (f : X -> Y) (l : list X) :
  (forall x, P x (f x)) -> Forall2 P l (map f l).
Proof. intros H. induction l; simpl; constructor; auto. Qed.

End WorkbookFacts.

Import WorkbookParser.

(** C9. No datasource whose name begins with [Parameters] or equals
    [Sample File] is ever extracted: every extracted datasource has a name
    outside the reserved ones, and the extracted names are the names of the
    named datasources of the document, in document order, with exactly the
    reserved ones left out. *)
Theorem C9_reserved_datasources_never_extracted (root : Element) :
  let named := findall root "datasource" (HasAttr "name") in
  Forall (fun d => exists n, ds_name d = Some n
                   /\ (forall t, n <> "Parameters" +:+ t) /\ n <> "Sample File")
         (extract_datasources root)
  /\ map ds_name (extract_datasources root) =
     List.filter (fun n => negb (internal_datasource n))
                 (map (fun ds => get ds "name") named)
  /\ (forall n, internal_datasource (Some n) = true <->
                (exists t, n = "Parameters" +:+ t) \/ n = "Sample File").
Proof.
  intros named. rewrite extract_datasources_kept. fold named.
  split; [|split].
  - assert (forall ds, In ds named -> exists v, get ds "name" = Some v) as Hnamed
      by (intros ds; apply findall_has_attr).
    induction named as [|ds l IH]; simpl; [constructor|].
    destruct (internal_datasource (get ds "name")) eqn:E.
    + apply IH. intros ds' H. apply Hnamed. by right.
    + constructor; [|apply IH; intros ds' H; apply Hnamed; by right].
      destruct (Hnamed ds) as [n Hn]; [by left|].
      exists n. split; [exact Hn|]. rewrite Hn in E.
      split.
      * intros t ->. assert (internal_datasource (Some ("Parameters" +:+ t)) = true) as H.
        { apply internal_datasource_reserved. left. by exists t. }
        congruence.
      * intros ->. done.
  - induction named as [|ds l IH]; simpl; [done|].
    destruct (internal_datasource (get ds "name")); simpl; by rewrite <- IH.
  - apply internal_datasource_reserved.
Qed.

(** C1 (as the code has it). A captioned column yields a calculated-field
    record exactly when a calculation element is nested in it: the records
    are those of the captioned columns that have one, in document order, all
    of them, whatever their number. *)
Theorem C1_calculated_fields_need_calculation (root : Element) :
  let cols := findall root "column" (HasAttr "caption") in
  extract_calculated_fields root =
    omap (fun col => calculated_field_dict col <$> find col "calculation" Any) cols
  /\ map cf_internal_name (extract_calculated_fields root) =
     map (fun col => get_default col "name" "") (List.filter has_calculation cols)
  /\ length (extract_calculated_fields root) = length (List.filter has_calculation cols)
  /\ length (extract_calculated_fields (Samples.many_columns 13)) = 13.
Proof.
  intros cols. rewrite extract_calculated_fields_kept. fold cols.
  assert (map cf_internal_name
            (omap (fun col => calculated_field_dict col <$> find col "calculation" Any) cols)
          = map (fun col => get_default col "name" "") (List.filter has_calculation cols))
    as Hnames.
  { induction cols as [|col l IH]; simpl; [done|]. unfold has_calculation at 1.
    destruct (find col "calculation" Any); simpl; by rewrite <- IH. }
  split; [done|]. split; [exact Hnames|]. split.
  - rewrite <- (length_map cf_internal_name), Hnames. by rewrite length_map.
  - by vm_compute.
Qed.

(** C1, the claim as stated fails: a captioned column whose internal name
    contains [Calculated] passes the test of the loop, and still yields no
    record when no calculation element is nested in it. *)
Lemma C1_name_only_column_is_dropped :
  findall Samples.name_only_workbook "column" (HasAttr "caption") = [Samples.name_only_column]
  /\ passes_calculated_test Samples.name_only_column = true
  /\ extract_calculated_fields Samples.name_only_workbook = [].
Proof. by vm_compute. Qed.

(** C8 (as the code has it). Each join relation of the document yields one
    record, in document order. Its left and right tables are read from the
    first and the second table relation nested in it: the [table] attribute
    of each, its [name] when it has no [table], the empty string when it has
    neither; both are empty when fewer than two table relations are nested.
    Its condition is the expression of the first nested join clause, and the
    relation's own expression when no join clause is nested. Tables that
    carry only the names [Orders] and [Customers] give exactly these two
    names and the clause's expression. *)
Theorem C8_join_tables_and_condition (root : Element) :
  Forall2
    (fun relation j =>
       let label := fun t => get_default t "table" (get_default t "name" "") in
       (join_tables j !! "left", join_tables j !! "right") =
         match findall relation "relation" (AttrIs "type" "table") with
         | t0 :: t1 :: _ => (Some (label t0), Some (label t1))
         | _ => (Some "", Some "")
         end
       /\ join_condition j =
          match find relation "clause" (AttrIs "type" "join") with
          | Some clause => get_default clause "expression" ""
          | None => get_default relation "expression" ""
          end)
    (findall root "relation" (AttrIs "type" "join")) (extract_joins root)
  /\ map (fun j => (join_tables j !! "left", join_tables j !! "right", join_condition j))
         (extract_joins (Elem "workbook" ∅ [Samples.named_join]))
     = [(Some "Orders", Some "Customers", Samples.orders_clause)].
Proof.
  split; [|by vm_compute].
  rewrite extract_joins_map. apply Forall2_map_r. intros relation. simpl.
  split; [|done]. unfold _extract_join_tables.
  destruct (findall relation "relation" (AttrIs "type" "table")) as [|t0 [|t1 rest]];
    by simplify_map_eq.
Qed.

(** C8, the claim as stated fails on the join of the generated sample
    workbook: its nested tables are named [Orders] and [Customers], and the
    extracted tables are the [table] attributes [[dbo].[Orders]] and
    [[dbo].[Customers]]. *)
Lemma C8_named_tables_yield_table_attribute :
  map (fun t => get t "name")
      (findall Samples.sample_join "relation" (AttrIs "type" "table"))
    = [Some "Orders"; Some "Customers"]
  /\ map (fun j => (join_tables j !! "left", join_tables j !! "right", join_condition j))
         (extract_joins Samples.sample_workbook)
     = [(Some "[dbo].[Orders]", Some "[dbo].[Customers]", Samples.orders_clause)].
Proof. by vm_compute. Qed.

(** C10. The condition of a join is decided by the first join clause nested
    in the relation: when there is one, the condition is its expression, and
    the empty string when it has none; the relation's own expression is read
    only when no join clause is nested at all. A relation with an expression
    of its own and a clause without one has the empty condition. *)
Theorem C10_join_clause_decides_condition (root : Element) :
  Forall2
    (fun relation j =>
       join_condition j =
         match List.filter (selects "clause" (AttrIs "type" "join")) (descendants relation) with
         | clause :: _ => default "" (get clause "expression")
         | [] => default "" (get relation "expression")
         end)
    (findall root "relation" (AttrIs "type" "join")) (extract_joins root)
  /\ get Samples.bare_clause_join "expression" = Some "[A].[id] = [B].[id]"
  /\ map join_condition (extract_joins (Elem "workbook" ∅ [Samples.bare_clause_join])) = [""].
Proof.
  split; [|by vm_compute].
  rewrite extract_joins_map. apply Forall2_map_r. intros relation. simpl.
  unfold _extract_join_clause, find, findall, get_default.
  destruct (List.filter _ (descendants relation)) as [|clause rest]; simpl.
  - by destruct (get relation "expression").
  - by destruct (get clause "expression").
Qed.

(** C2 (as the code has it). When a connection element is nested in the
    node, a prep-flow input or output connection holds every one of its keys,
    with the attribute's value or the empty string for a missing attribute;
    a workbook connection holds every one of its keys with what
    [conn.get(key)] returns, which is [None] for a missing attribute. When no
    connection element is nested, all three are the empty dict. *)
Theorem C2_connection_fields (node : Element) :
  match find node "connection" Any with
  | Some conn =>
      Forall (fun '(key, attr) =>
                PrepFlowParser._extract_input_connection node !! key
                = Some (default "" (get conn attr)))
             [("class", "class"); ("server", "server"); ("dbname", "dbname");
              ("schema", "schema"); ("table", "table-name")]
      /\ Forall (fun '(key, attr) =>
                PrepFlowParser._extract_output_connection node !! key
                = Some (default "" (get conn attr)))
             [("class", "class"); ("dbname", "dbname"); ("schema", "schema");
              ("table", "table-name")]
      /\ Forall (fun key => _extract_connection node !! key = Some (get conn key))
             ["class"; "server"; "dbname"; "schema"; "username"; "authentication"]
  | None =>
      PrepFlowParser._extract_input_connection node = ∅
      /\ PrepFlowParser._extract_output_connection node = ∅
      /\ _extract_connection node = ∅
  end.
Proof.
  unfold PrepFlowParser._extract_input_connection,
    PrepFlowParser._extract_output_connection, _extract_connection, get_default.
  destruct (find node "connection" Any) as [conn|]; [|done].
  repeat split; repeat constructor; simplify_map_eq; try done;
    by repeat match goal with |- context [get conn ?k] => destruct (get conn k) end.
Qed.

(** C2, the claim as stated fails: a workbook connection that lacks the
    [server] attribute holds [None] under [server], not the empty string; and
    without a connection element the keys are missing altogether, for a
    workbook datasource and for a prep-flow input alike. *)
Lemma C2_missing_field_is_none_or_absent :
  _extract_connection Samples.class_only_datasource !! "server" = Some None
  /\ _extract_connection Samples.unconnected_datasource !! "server" = None
  /\ PrepFlowParser._extract_input_connection Samples.unconnected_input !! "server" = None.
Proof. by vm_compute. Qed.

(** ** Properties of the prep-flow parser *)

Section PrepFlowFacts.
Import PrepFlowParser.
Local Open Scope Z_scope.

Lemma numbers_shift (k : Z) (n : nat) :
  (k + 1) :: map (fun i => k + 1 + Z.of_nat i) (seq 1 n)
  = map (fun i => k + Z.of_nat i) (seq 1 (S n)).
Proof.
  change (seq 1 (S n)) with (1%nat :: seq 2 n). simpl.
  rewrite <- (seq_shift n 1), map_map. f_equal.
  apply map_ext. intros i. lia.
Qed.

(** The step loop from the state [(steps, k)]: the counter advances by one
    per typed node, and the typed nodes are appended with the numbers
    [k + 1], [k + 2], ... *)
Lemma step_loop_invariant (nodes : list Element) :
  forall (steps : list step_info) (k : Z),
    let r := fold_left step_loop_body nodes (steps, k) in
    let typed := List.filter has_type nodes in
    map step_number (fst r)
      = map step_number steps ++ map (fun i => k + Z.of_nat i) (seq 1 (length typed))
    /\ map step_view (fst r) = map step_view steps ++ map node_view typed.
Proof.
  induction nodes as [|node nodes IH]; intros steps k; simpl.
  - by rewrite !app_nil_r.
  - unfold has_type. destruct (get node "type") as [node_type|] eqn:E; simpl.
    + destruct (truthy node_type) eqn:T; simpl; [|apply IH].
      destruct (IH (steps ++ [step_dict (k + 1) node_type node]) (k + 1)) as [H1 H2].
      split.
      * rewrite H1, map_app. simpl. rewrite <- app_assoc. simpl.
        f_equal. apply numbers_shift.
      * rewrite H2, map_app. simpl. rewrite <- app_assoc. simpl.
        unfold step_view at 2, node_view at 2, get_default. simpl.
        by rewrite E.
    + apply IH.
Qed.

(** The loop over the inputs after the first: [left] is left alone,
    [right] ends as the last of them, no other key is written. *)
Lemma join_inputs_tail (rest : list Element) :
  forall (n : nat) (acc : gmap string join_input),
    let m := fold_left join_inputs_body (enumerate_from (S n) rest) acc in
    m !! "left" = acc !! "left"
    /\ m !! "right" = match last rest with
                      | Some inp => Some (input_dict inp)
                      | None => acc !! "right"
                      end.
Proof.
  induction rest as [|inp rest IH]; intros n acc; simpl; [done|].
  destruct (IH (S n) (<["right" := input_dict inp]> acc)) as [H1 H2].
  split.
  - rewrite H1. by simplify_map_eq.
  - rewrite H2. destruct rest as [|inp' rest]; simpl; [by simplify_map_eq|].
    destruct (last (inp' :: rest)) eqn:E; [done|]. by apply last_None in E.
Qed.

End PrepFlowFacts.

(** C4. The step numbers of a flow are [1, 2, ..., n] in traversal order,
    where [n] counts the node elements whose type is present and not empty:
    exactly these nodes are numbered, one step each, and a node without a
    type takes no number. The numbers are read off the traversal alone,
    whatever the [id] attributes say. *)
Theorem C4_step_numbers_contiguous (root : Element) :
  let typed := List.filter PrepFlowParser.has_type (findall root "node" Any) in
  map PrepFlowParser.step_number (PrepFlowParser.extract_step_sequence root)
    = map Z.of_nat (seq 1 (length typed))
  /\ map PrepFlowParser.step_view (PrepFlowParser.extract_step_sequence root)
    = map PrepFlowParser.node_view typed
  /\ map (fun s => (PrepFlowParser.step_number s, PrepFlowParser.step_id s))
         (PrepFlowParser.extract_step_sequence Samples.sample_flow)
     = [(1%Z, "node7"); (2%Z, "node1")].
Proof.
  intros typed. unfold PrepFlowParser.extract_step_sequence.
  destruct (step_loop_invariant (findall root "node" Any) [] 0%Z) as [H1 H2].
  split; [|split].
  - rewrite H1. simpl. apply map_ext. intros i. lia.
  - by rewrite H2.
  - by vm_compute.
Qed.

(** C5 (as the code has it). The left input of a join is the first input
    element nested in the node, and the right input is the last of the
    nested input elements after the first, each with its source and alias;
    with exactly two inputs the right one is the second. *)
Theorem C5_join_inputs_left_first_right_last (join_node : Element) :
  let inputs := findall join_node "input" Any in
  PrepFlowParser._extract_join_inputs join_node !! "left"
    = PrepFlowParser.input_dict <$> head inputs
  /\ PrepFlowParser._extract_join_inputs join_node !! "right"
    = PrepFlowParser.input_dict <$> last (tail inputs)
  /\ match inputs with
     | [_; second] =>
         PrepFlowParser._extract_join_inputs join_node !! "right"
         = Some (PrepFlowParser.input_dict second)
     | _ => True
     end.
Proof.
  intros inputs. unfold PrepFlowParser._extract_join_inputs. fold inputs.
  assert (fold_left PrepFlowParser.join_inputs_body (enumerate inputs) ∅ !! "left"
          = PrepFlowParser.input_dict <$> head inputs
          /\ fold_left PrepFlowParser.join_inputs_body (enumerate inputs) ∅ !! "right"
          = PrepFlowParser.input_dict <$> last (tail inputs)) as [HL HR].
  { destruct inputs as [|first rest]; simpl; [done|].
    destruct (join_inputs_tail rest 0 (<["left" := PrepFlowParser.input_dict first]> ∅))
      as [H1 H2].
    split.
    - rewrite H1. by simplify_map_eq.
    - rewrite H2. destruct (last rest); simpl; [done|]. by simplify_map_eq. }
  split; [exact HL|]. split; [exact HR|].
  destruct inputs as [|? [|second [|? ?]]]; try done.
Qed.

(** C5, the claim as stated fails: with three inputs the right input is the
    third, not the second. *)
Lemma C5_third_input_overwrites_right :
  map (fun inp => get inp "alias") (findall Samples.three_input_join "input" Any)
    = [Some "A"; Some "B"; Some "C"]
  /\ PrepFlowParser._extract_join_inputs Samples.three_input_join !! "right"
     = Some {| PrepFlowParser.source := "node3"; PrepFlowParser.alias := "C" |}.
Proof. by vm_compute. Qed.

(** ** Properties of the context manager *)

Section FormatterFacts.
Import ContextManager.

Lemma append_each_map {X : Type} (f : X -> string) (xs : list X) (sections : list string) :
  append_each f xs sections = sections ++ map f xs.
Proof. apply fold_left_append_map. Qed.

Lemma format_join_block (sections : list string) (join : WorkbookParser.join_info) :
  format_join sections join = sections ++ format_join [] join.
Proof.
  unfold format_join. destruct (truthy (join_condition join)); simpl; [|done].
  by rewrite <- app_assoc.
Qed.

Lemma format_flow_join_block (sections : list string) (join : PrepFlowParser.join_info) :
  format_flow_join sections join = sections ++ format_flow_join [] join.
Proof.
  unfold format_flow_join. rewrite !append_each_map. simpl.
  by rewrite <- app_assoc.
Qed.

Lemma sub_section_grow {X : Type} (xs : list X) (header : string)
  (lines sections : list string) :
  (if nonempty xs then (sections ++ [header]) ++ lines else sections)
  = sections ++ sub_section xs header lines.
Proof.
  unfold sub_section. destruct (nonempty xs); [|by rewrite app_nil_r].
  by rewrite <- app_assoc.
Qed.

(** The sections of a workbook, as one concatenation. *)
Lemma workbook_sections_layout (metadata : workbook_metadata) :
  workbook_sections metadata =
    ["# Tableau Workbook: " +:+ dashboard_name metadata +:+ newline_str]
    ++ sub_section (datasources metadata) "## Data Sources:"
         (map format_datasource (datasources metadata))
    ++ sub_section (calculated_fields metadata) (newline_str +:+ "## Calculated Fields:")
         (calculated_field_lines (calculated_fields metadata))
    ++ sub_section (parameters metadata) (newline_str +:+ "## Parameters:")
         (map format_parameter (parameters metadata))
    ++ sub_section (WorkbookParser.joins metadata) (newline_str +:+ "## Joins:")
         (flat_map (format_join []) (WorkbookParser.joins metadata))
    ++ sub_section (filters metadata) (newline_str +:+ "## Active Filters:")
         (map format_filter (firstn 5 (filters metadata))).
Proof.
  unfold workbook_sections.
  rewrite !append_each_map.
  rewrite (fold_left_append_blocks format_join (format_join []) format_join_block).
  rewrite (sub_section_grow (datasources metadata)).
  assert (forall sections,
    (if nonempty (calculated_fields metadata)
     then if (10 <? length (calculated_fields metadata))%nat
          then ((sections ++ [newline_str +:+ "## Calculated Fields:"])
                ++ map format_calculated_field (firstn 10 (calculated_fields metadata)))
               ++ [more_trailer (Z.of_nat (length (calculated_fields metadata)) - 10)]
          else (sections ++ [newline_str +:+ "## Calculated Fields:"])
               ++ map format_calculated_field (firstn 10 (calculated_fields metadata))
     else sections)
    = sections ++ sub_section (calculated_fields metadata)
                    (newline_str +:+ "## Calculated Fields:")
                    (calculated_field_lines (calculated_fields metadata))) as Hcalc.
  { intros sections. unfold sub_section, calculated_field_lines.
    destruct (nonempty (calculated_fields metadata)); [|by rewrite app_nil_r].
    destruct (10 <? length (calculated_fields metadata))%nat;
      rewrite <- ?app_assoc; simpl; [done|]. by rewrite app_nil_r. }
  rewrite Hcalc.
  rewrite (sub_section_grow (parameters metadata)).
  rewrite (sub_section_grow (WorkbookParser.joins metadata)).
  rewrite (sub_section_grow (filters metadata)).
  by rewrite <- !app_assoc.
Qed.

Lemma prepflow_sections_layout (metadata : PrepFlowParser.prepflow_metadata) :
  prepflow_sections metadata =
    ["# Tableau Prep Flow: " +:+ PrepFlowParser.flow_name metadata +:+ newline_str]
    ++ sub_section (PrepFlowParser.input_sources metadata) "## Input Sources:"
         (map format_input_source (PrepFlowParser.input_sources metadata))
    ++ sub_section (PrepFlowParser.steps metadata) (newline_str +:+ "## Transformation Steps:")
         (map format_step (PrepFlowParser.steps metadata))
    ++ sub_section (PrepFlowParser.joins metadata) (newline_str +:+ "## Join Details:")
         (flat_map (format_flow_join []) (PrepFlowParser.joins metadata))
    ++ sub_section (PrepFlowParser.outputs metadata) (newline_str +:+ "## Output Destinations:")
         (map format_output (PrepFlowParser.outputs metadata)).
Proof.
  unfold prepflow_sections.
  rewrite !append_each_map.
  rewrite (fold_left_append_blocks format_flow_join (format_flow_join [])
             format_flow_join_block).
  rewrite (sub_section_grow (PrepFlowParser.input_sources metadata)).
  rewrite (sub_section_grow (PrepFlowParser.steps metadata)).
  rewrite (sub_section_grow (PrepFlowParser.joins metadata)).
  rewrite (sub_section_grow (PrepFlowParser.outputs metadata)).
  by rewrite <- !app_assoc.
Qed.

Lemma format_workbook_nonempty (metadata : workbook_metadata) :
  _format_workbook_metadata metadata <> "".
Proof.
  unfold _format_workbook_metadata. rewrite workbook_sections_layout.
  simpl. by apply join_cons_nonempty.
Qed.

Lemma format_prepflow_nonempty (metadata : PrepFlowParser.prepflow_metadata) :
  _format_prepflow_metadata metadata <> "".
Proof.
  unfold _format_prepflow_metadata. rewrite prepflow_sections_layout.
  simpl. by apply join_cons_nonempty.
Qed.

Lemma format_issues_nonempty (issues : list (gmap string cell)) :
  _format_issues issues <> "".
Proof.
  unfold _format_issues, issue_sections.
  destruct (negb (nonempty issues)); simpl; [done|].
  rewrite fold_left_append_blocks with
    (f := fun item : nat * gmap string cell =>
            [ "## Issue " +:+ str_of_Z (Z.of_nat (fst item)) +:+ ":";
              "**Description:** " +:+ issue_field (snd item) "Issue Description";
              "**Root Cause:** " +:+ issue_field (snd item) "Root Cause";
              "**Resolution:** " +:+ issue_field (snd item) "Resolution";
              "" ]).
  - cbn [app]. apply join_cons_nonempty. by simpl.
  - by intros acc [i issue].
Qed.

(** The record the manager loads is of the kind its type names. *)
Lemma load_then_format (self : state) (dashboard_name dashboard_type : string)
  (metadata : metadata) :
  load_dashboard_metadata self dashboard_name dashboard_type = Some metadata ->
  exists part, _format_metadata metadata dashboard_type = Returns part /\ part <> "".
Proof.
  unfold load_dashboard_metadata, _format_metadata.
  destruct (String.eqb dashboard_type "workbook").
  - destruct (workbooks self !! dashboard_name) as [m|]; simpl; [|done].
    intros [= <-]. eexists. split; [done|]. apply format_workbook_nonempty.
  - destruct (prep_flows self !! dashboard_name) as [m|]; simpl; [|done].
    intros [= <-]. eexists. split; [done|]. apply format_prepflow_nonempty.
Qed.

(** The bullet of a datasource, from the fields of its record. *)
Lemma format_datasource_shown (ds : datasource_info) :
  format_datasource ds
  = "- **" +:+ match ds_caption ds with Some c => c | None => "None" end +:+ "**: "
    +:+ ((match ds_connection ds !! "class" with
          | Some (Some c) => c
          | Some None => "None"
          | None => "N/A"
          end
          +:+ match ds_connection ds !! "dbname" with
              | Some (Some v) => if truthy v then " - " +:+ v else ""
              | _ => ""
              end)
         +:+ match ds_connection ds !! "server" with
             | Some (Some v) => if truthy v then " @ " +:+ v else ""
             | _ => ""
             end).
Proof.
  assert (forall s : string, s +:+ "" = s) as Hempty.
  { induction s as [|x s IH]; [done|].
    change (String x (s +:+ "") = String x s). by rewrite IH. }
  unfold format_datasource, truthy_field, fmt_optional.
  destruct (ds_caption ds); do 3 f_equal;
    destruct (ds_connection ds !! "class") as [[cls|]|];
    destruct (ds_connection ds !! "dbname") as [[db|]|]; try destruct (truthy db);
    destruct (ds_connection ds !! "server") as [[srv|]|]; try destruct (truthy srv);
    rewrite ?Hempty; done.
Qed.

(** The text of an integer is its decimal notation: it reads back as the
    integer. *)
Lemma str_of_Z_reads_back (n : Z) :
  option_map Z.of_int (NilZero.int_of_string (str_of_Z n)) = Some n.
Proof.
  unfold str_of_Z. rewrite NilZero.isi.
  - simpl. by rewrite DecimalZ.of_to.
  - destruct n; simpl; try done. intros [= H].
    by apply DecimalPos.Unsigned.to_uint_nonnil in H.
  - destruct n; simpl; try done. intros [= H].
    by apply DecimalPos.Unsigned.to_uint_nonnil in H.
Qed.

End FormatterFacts.

Import ContextManager.

(** C6. The string the workbook formatter returns is its lines joined by
    newlines: the title, then the sub-sections datasources, calculated
    fields, parameters, joins and filters in this order, each only when its
    collection is not empty. The calculated fields are one bullet
    [- **name**: `formula`] for each of the first ten, followed, when there
    are more than ten, by one trailer [_(... and N more)_] where [N] is the
    decimal text of the count of the rest (thirteen fields: ten bullets and
    a trailer that reads [(... and 3 more)]); ten or fewer are one bullet
    each, without a trailer. At most five filters are rendered. *)
Theorem C6_workbook_layout_and_field_cap (metadata : workbook_metadata) :
  let bullet := fun field : calculated_field =>
    "- **" +:+ cf_name field +:+ "**: `" +:+ cf_formula field +:+ "`" in
  let trailer := fun rest : Z => "  _(... and " +:+ str_of_Z rest +:+ " more)_" in
  let field_lines := fun fields : list calculated_field =>
    map bullet (firstn 10 fields)
    ++ (if (10 <? length fields)%nat
        then [trailer (Z.of_nat (length fields) - 10)%Z] else []) in
  let shown := fun (conn : gmap string (option string)) (key sep : string) =>
    match conn !! key with
    | Some (Some v) => if truthy v then sep +:+ v else ""
    | _ => ""
    end in
  let datasource_line := fun ds : datasource_info =>
    "- **" +:+ match ds_caption ds with Some c => c | None => "None" end +:+ "**: "
    +:+ ((match ds_connection ds !! "class" with
          | Some (Some c) => c
          | Some None => "None"
          | None => "N/A"
          end +:+ shown (ds_connection ds) "dbname" " - ")
         +:+ shown (ds_connection ds) "server" " @ ") in
  let parameter_line := fun param : parameter_info =>
    "- **" +:+ par_caption param +:+ "** (" +:+ par_datatype param +:+ ")"
    +:+ (if truthy (par_value param) then " = " +:+ par_value param else "") in
  let join_lines := fun join : join_info =>
    ("- **" +:+ upper (join_type join) +:+ " JOIN**: "
     +:+ default "Table1" (join_tables join !! "left") +:+ " ↔ "
     +:+ default "Table2" (join_tables join !! "right"))
    :: (if truthy (join_condition join)
        then ["  - Condition: `" +:+ join_condition join +:+ "`"] else []) in
  let filter_line := fun filt : filter_info =>
    "- " +:+ (if truthy (flt_column filt) then flt_column filt else flt_field filt)
    +:+ " (" +:+ flt_class filt +:+ ")" in
  _format_workbook_metadata metadata =
    join newline_str
      (["# Tableau Workbook: " +:+ dashboard_name metadata +:+ newline_str]
       ++ sub_section (datasources metadata) "## Data Sources:"
            (map datasource_line (datasources metadata))
       ++ sub_section (calculated_fields metadata)
            (newline_str +:+ "## Calculated Fields:")
            (field_lines (calculated_fields metadata))
       ++ sub_section (parameters metadata) (newline_str +:+ "## Parameters:")
            (map parameter_line (parameters metadata))
       ++ sub_section (joins metadata) (newline_str +:+ "## Joins:")
            (flat_map join_lines (joins metadata))
       ++ sub_section (filters metadata) (newline_str +:+ "## Active Filters:")
            (map filter_line (firstn 5 (filters metadata))))
  /\ (forall fields : list calculated_field,
        (10 < length fields)%nat ->
        field_lines fields =
          map bullet (firstn 10 fields) ++ [trailer (Z.of_nat (length fields) - 10)%Z]
        /\ length (map bullet (firstn 10 fields)) = 10%nat)
  /\ (forall fields : list calculated_field,
        (length fields <= 10)%nat -> field_lines fields = map bullet fields)
  /\ (forall rest : Z,
        option_map Z.of_int (NilZero.int_of_string (str_of_Z rest)) = Some rest)
  /\ trailer (13 - 10)%Z = "  _(... and 3 more)_"
  /\ (length (map filter_line (firstn 5 (filters metadata))) <= 5)%nat.
Proof.
  intros bullet trailer field_lines shown datasource_line parameter_line join_lines
    filter_line.
  split; [|split; [|split; [|split; [|split]]]].
  - unfold _format_workbook_metadata. rewrite workbook_sections_layout.
    assert (map format_datasource (datasources metadata)
            = map datasource_line (datasources metadata)) as ->.
    { apply map_ext. intros ds. exact (format_datasource_shown ds). }
    assert (flat_map (format_join []) (joins metadata)
            = flat_map join_lines (joins metadata)) as ->.
    { apply flat_map_ext. intros j. unfold format_join, join_lines.
      by destruct (truthy (join_condition j)). }
    reflexivity.
  - intros fields Hlen. unfold field_lines.
    apply Nat.ltb_lt in Hlen as Hlt. rewrite Hlt. split; [done|].
    rewrite length_map, length_firstn. lia.
  - intros fields Hlen. unfold field_lines.
    assert ((10 <? length fields)%nat = false) as -> by (apply Nat.ltb_ge; lia).
    rewrite app_nil_r. by rewrite firstn_all2.
  - exact str_of_Z_reads_back.
  - by vm_compute.
  - rewrite length_map, length_firstn. lia.
Qed.

(** C6 on thirteen fields: the returned string is the title, the header of
    the calculated fields, ten bullets and the trailer for the three that
    are left. *)
Lemma C6_thirteen_fields_render :
  (10 < length Samples.thirteen_fields)%nat
  /\ _format_workbook_metadata Samples.thirteen_field_workbook
     = join newline_str
         ([ "# Tableau Workbook: sales_dashboard" +:+ newline_str;
            newline_str +:+ "## Calculated Fields:" ]
          ++ map (fun i => "- **F" +:+ str_of_Z (Z.of_nat i) +:+ "**: `1`") (seq 1 10)
          ++ [ "  _(... and 3 more)_" ]).
Proof.
  destruct (C6_workbook_layout_and_field_cap Samples.thirteen_field_workbook)
    as (Hstring & _).
  split; [vm_compute; lia|].
  rewrite Hstring. vm_compute. reflexivity.
Defined.

(** C7, the summary at two dashboards: with the sample table loaded, the
    name [*sales] is no valid pattern, the lookup raises and so does the
    summary; with a table whose rows have no dashboard name, the lookup
    raises on the name column for every name, and so does the summary. No
    context string is returned in either case. *)
Theorem C7_lookup_errors_reach_the_summary :
  build_context_summary Samples.manager "*sales" "workbook" = Raises ReError
  /\ build_context_summary MoreSamples.blank_names_manager "sales_dashboard" "workbook"
     = Raises AttributeError
  /\ load_dashboard_metadata MoreSamples.blank_names_manager "sales_dashboard" "workbook"
     = None.
Proof. repeat split; vm_compute; reflexivity. Qed.

(** X16. Whenever the lookup of the issues returns, the summary is built:
    it is the metadata part and the issues part, both non-empty, joined by
    a blank line, [---] and a blank line. Without a metadata record the
    first part is [# Type: name], a blank line and [(No metadata
    available)], where the type is shown with spaces for underscores and in
    title case; the issues part is the formatted issues, or two lines that
    say that none was found when the lookup returned none. *)
Theorem summary_when_lookup_returns (self : state)
  (dashboard_name dashboard_type : string) (issues : list (gmap string cell)) :
  get_relevant_issues self dashboard_name None = Returns issues ->
  let issues_part :=
    match issues with
    | [] => "# Historical Issues" +:+ newline_str +:+ newline_str
            +:+ "No previous issues found for this dashboard."
    | _ => _format_issues issues
    end in
  exists metadata_part : string,
    build_context_summary self dashboard_name dashboard_type
    = Returns (metadata_part +:+ newline_str +:+ newline_str +:+ "---"
               +:+ newline_str +:+ newline_str +:+ issues_part)
    /\ metadata_part <> "" /\ issues_part <> ""
    /\ (load_dashboard_metadata self dashboard_name dashboard_type = None ->
        metadata_part
        = "# " +:+ title (replace_char "_" " " dashboard_type) +:+ ": "
          +:+ dashboard_name +:+ newline_str +:+ newline_str
          +:+ "(No metadata available)")
    /\ (forall m, load_dashboard_metadata self dashboard_name dashboard_type
                  = Some (Workbook m) ->
        metadata_part = _format_workbook_metadata m)
    /\ (forall m, load_dashboard_metadata self dashboard_name dashboard_type
                  = Some (PrepFlow m) ->
        metadata_part = _format_prepflow_metadata m).
Proof.
  intros Hfound issues_part.
  unfold build_context_summary. rewrite Hfound. unfold assemble, context_parts.
  assert (issues_part <> "") as Hissues.
  { subst issues_part. destruct issues; [done|]. apply format_issues_nonempty. }
  assert ((if nonempty issues then [_format_issues issues] else [no_issues_placeholder])
          = [issues_part]) as Hpart by (by destruct issues).
  destruct (load_dashboard_metadata self dashboard_name dashboard_type) as [m|] eqn:E.
  - destruct (load_then_format self dashboard_name dashboard_type m E)
      as (part & Hformat & Hne).
    rewrite Hformat. exists part.
    split; [by destruct issues|]. split; [exact Hne|]. split; [exact Hissues|].
    split; [done|].
    unfold load_dashboard_metadata in E. unfold _format_metadata in Hformat.
    destruct (String.eqb dashboard_type "workbook").
    + destruct (workbooks self !! dashboard_name); simpl in E; [|done].
      injection E as <-. injection Hformat as <-.
      split; [by intros ? [= <-] | by intros ? [=]].
    + destruct (prep_flows self !! dashboard_name); simpl in E; [|done].
      injection E as <-. injection Hformat as <-.
      split; [by intros ? [=] | by intros ? [= <-]].
  - exists (no_metadata_placeholder dashboard_name dashboard_type).
    split; [by destruct issues|]. split; [done|]. split; [exact Hissues|].
    split; [done|]. split; by intros ? [=].
Qed.

(** X16 on the table of names, for a flow the stores do not hold: the
    lookup returns the first rows that name the flow and the summary opens
    with the placeholder. *)
Lemma summary_of_missing_flow :
  exists issues metadata_part,
    get_relevant_issues MoreSamples.names_manager "stock" None = Returns issues
    /\ build_context_summary MoreSamples.names_manager "stock" "prep_flow"
       = Returns (metadata_part +:+ newline_str +:+ newline_str +:+ "---"
                  +:+ newline_str +:+ newline_str +:+ _format_issues issues)
    /\ metadata_part
       = "# Prep Flow: stock" +:+ newline_str +:+ newline_str
         +:+ "(No metadata available)".
Proof.
  assert (get_relevant_issues MoreSamples.names_manager "stock" None
          = Returns [MoreSamples.name_row (CStr "stock")]) as Hrows
    by (vm_compute; reflexivity).
  destruct (summary_when_lookup_returns MoreSamples.names_manager "stock" "prep_flow"
              [MoreSamples.name_row (CStr "stock")] Hrows)
    as (metadata_part & Hsummary & _ & _ & Hnone & _).
  exists [MoreSamples.name_row (CStr "stock")], metadata_part.
  split; [exact Hrows|]. split; [exact Hsummary|]. exact (Hnone eq_refl).
Defined.

(** ** Properties of the issue lookup *)

Section LookupFacts.

Lemma re_compile_plain (pat : string) :
  plain pat = true ->
  re_compile pat = Returns (map Lit (list_ascii_of_string pat)).
Proof.
  intros Hplain.
  assert (re_atoms pat = Returns (map Lit (list_ascii_of_string pat))) as Hatoms.
  { induction pat as [|c pat IH]; simpl; [done|]. simpl in Hplain.
    rewrite !andb_true_iff, !negb_true_iff in Hplain.
    destruct Hplain as [[Hs Hd] Hp].
    rewrite Hs, (IH Hp). by rewrite Hd. }
  unfold re_compile. destruct pat as [|c pat]; [done|].
  assert (contains (String c EmptyString) re_repeat = false) as ->; [|done].
  simpl in Hplain. rewrite !andb_true_iff, !negb_true_iff in Hplain.
  destruct Hplain as [[Hs _] _]. revert Hs. clear.
  destruct c as [[] [] [] [] [] [] [] []]; by vm_compute.
Qed.

Lemma re_match_here_literal (pat s : string) :
  re_match_here (map Lit (list_ascii_of_string pat)) s
  = startswith (lower pat) (lower s).
Proof.
  revert s. induction pat as [|c pat IH]; intros s; simpl; [done|].
  destruct s as [|x s]; simpl; [done|].
  rewrite IH. by destruct (Ascii.eqb (to_lower c) (to_lower x)).
Qed.

(** Searching a literal pattern is the substring test on the lowered
    texts. *)
Lemma re_search_literal (pat s : string) :
  re_search (map Lit (list_ascii_of_string pat)) s
  = contains (lower pat) (lower s).
Proof.
  induction s as [|x s IH].
  - simpl. by rewrite (re_match_here_literal pat "").
  - cbn [re_search]. rewrite IH, (re_match_here_literal pat (String x s)).
    done.
Qed.

Lemma select_rows_mask {X : Type} (f : X -> bool) (rows : list X) :
  select_rows rows (map f rows) = List.filter f rows.
Proof.
  induction rows as [|r rows IH]; simpl; [done|].
  rewrite IH. by destruct (f r).
Qed.

Lemma existsb_In_string (x : string) (l : list string) :
  In x l -> existsb (String.eqb x) l = true.
Proof.
  intros H. apply existsb_exists. exists x. split; [done|].
  apply String.eqb_refl.
Qed.

End LookupFacts.

(** C3, the lookup at the name [sales.dashboard]: no row of the table
    contains this name, in any case of the letters, and the lookup returns
    three rows all the same, because the name is searched as a regular
    expression whose dot stands for any character. At the name [*sales] the
    expression does not compile and the lookup raises. *)
Theorem C3_dotted_name_is_searched_as_pattern :
  List.filter (names_dashboard "sales.dashboard") (records Samples.issues_table) = []
  /\ Samples.descriptions (get_relevant_issues Samples.manager "sales.dashboard" (Some 3%Z))
     = Returns [Some (CStr "one"); Some (CStr "three"); Some (CStr "five")]
  /\ get_relevant_issues Samples.manager "*sales" (Some 3%Z) = Raises ReError.
Proof. repeat split; vm_compute; reflexivity. Qed.

(** X1. For a dashboard name made of ordinary ASCII characters the lookup
    is the substring search: on a loaded table that has the name column with
    some text in it, all of it ASCII, a limit of zero or more returns the
    rows whose dashboard name contains the name, in any case of the letters,
    in the order of the table and cut to the limit. A row without a
    dashboard name is never among them. *)
Theorem issues_for_plain_name (self : state) (df : DataFrame) (name : string) (limit : Z) :
  issues_df self = Some df ->
  In dashboard_column (columns df) ->
  existsb is_text (series df dashboard_column) = true ->
  plain name = true ->
  ascii_only name = true ->
  forallb cell_ascii_only (series df dashboard_column) = true ->
  (0 <= limit)%Z ->
  get_relevant_issues self name (Some limit)
    = Returns (firstn (Z.to_nat limit) (List.filter (names_dashboard name) (records df)))
  /\ Forall (fun row => exists s, row !! dashboard_column = Some (CStr s))
            (List.filter (names_dashboard name) (records df)).
Proof.
  intros Hdf Hcol Htext Hplain Hname Hcells Hlimit. split.
  - unfold get_relevant_issues. rewrite Hdf.
    destruct (records df) as [|row rows] eqn:Hrows.
    { unfold series in Htext. by rewrite Hrows in Htext. }
    rewrite <- Hrows. simpl length. rewrite Hrows. simpl Nat.eqb. cbv iota.
    rewrite <- Hrows.
    rewrite (existsb_In_string _ _ Hcol). simpl negb. cbv iota.
    unfold str_contains. rewrite Htext, Hname, Hcells. simpl negb. cbv iota.
    rewrite (re_compile_plain name Hplain).
    unfold series. rewrite map_map.
    rewrite (map_ext _ (names_dashboard name)).
    + rewrite select_rows_mask. unfold head_rows.
      by assert ((0 <=? limit)%Z = true) as -> by (apply Z.leb_le; lia).
    + intros r. unfold names_dashboard.
      destruct (r !! dashboard_column) as [[s|]|]; simpl; try done.
      apply re_search_literal.
  - apply List.Forall_forall. intros row H. apply filter_In in H as [_ H].
    unfold names_dashboard in H.
    destruct (row !! dashboard_column) as [[s|]|]; try done. by exists s.
Qed.

(** X1 on the sample table: five rows name [sales_dashboard]; a limit of
    three returns the first three of them, in the order of the table. *)
Lemma issues_for_sales_dashboard :
  Samples.descriptions (get_relevant_issues Samples.manager "sales_dashboard" (Some 3%Z))
  = Returns [Some (CStr "one"); Some (CStr "three"); Some (CStr "five")]
  /\ length (List.filter (names_dashboard "sales_dashboard") (records Samples.issues_table))
     = 5%nat.
Proof.
  destruct (issues_for_plain_name Samples.manager Samples.issues_table
              "sales_dashboard" 3%Z) as [H _].
  - reflexivity.
  - vm_compute. by left.
  - vm_compute. reflexivity.
  - vm_compute. reflexivity.
  - vm_compute. reflexivity.
  - vm_compute. reflexivity.
  - lia.
  - split; [rewrite H|]; vm_compute; reflexivity.
Defined.

(** ** Further properties of the parsers *)

Section ParserFacts.

Lemma append_assoc (a b c : string) : (a +:+ b) +:+ c = a +:+ (b +:+ c).
Proof.
  induction a as [|x a IH]; [done|].
  change (String x ((a +:+ b) +:+ c) = String x (a +:+ (b +:+ c))).
  by rewrite IH.
Qed.

Lemma truthy_nonempty (s : string) : truthy s = true <-> s <> "".
Proof. destruct s; simpl; split; done. Qed.

Lemma map_filter_comm {X Y : Type} (f : X -> Y) (P : Y -> bool) (l : list X) :
  map f (List.filter (fun x => P (f x)) l) = List.filter P (map f l).
Proof.
  induction l as [|x l IH]; simpl; [done|].
  destruct (P (f x)); simpl; by rewrite IH.
Qed.

Lemma filter_filter {X : Type} (P Q : X -> bool) (l : list X) :
  List.filter P (List.filter Q l) = List.filter (fun x => Q x && P x) l.
Proof.
  induction l as [|x l IH]; simpl; [done|].
  destruct (Q x); simpl; [|done]. destruct (P x); by rewrite IH.
Qed.

(** The nodes of one type are the typed nodes of that type. *)
Lemma findall_typed_nodes (root : Element) (t : string) :
  t <> "" ->
  findall root "node" (AttrIs "type" t)
  = List.filter (fun node => String.eqb (get_default node "type" "") t)
                (List.filter PrepFlowParser.has_type (findall root "node" Any)).
Proof.
  intros Ht. unfold findall. rewrite !filter_filter.
  apply filter_ext. intros node. unfold selects, PrepFlowParser.has_type, get_default.
  simpl. destruct (String.eqb (tag node) "node"); simpl; [|done].
  destruct (get node "type") as [v|]; simpl.
  - destruct (String.eqb v t) eqn:E; [|by rewrite andb_false_r].
    apply String.eqb_eq in E as ->. by destruct t.
  - destruct t; [done|]. done.
Qed.

(** The step loop from the counter [n]: the typed nodes are appended with the
    numbers [n + 1], [n + 2], ... *)
Lemma step_loop_closed (nodes : list Element) :
  forall (steps : list PrepFlowParser.step_info) (n : nat),
    fst (fold_left PrepFlowParser.step_loop_body nodes (steps, Z.of_nat n))
    = steps ++ map (fun item : nat * Element =>
                      PrepFlowParser.step_dict (Z.of_nat (fst item))
                        (get_default (snd item) "type" "") (snd item))
                   (enumerate_from (S n) (List.filter PrepFlowParser.has_type nodes)).
Proof.
  induction nodes as [|node nodes IH]; intros steps n; simpl.
  - by rewrite app_nil_r.
  - unfold PrepFlowParser.has_type at 1.
    destruct (get node "type") as [node_type|] eqn:E; simpl; [|apply IH].
    destruct (truthy node_type) eqn:T; simpl; [|apply IH].
    replace (Z.of_nat n + 1)%Z with (Z.of_nat (S n)) by lia.
    rewrite IH, <- app_assoc. simpl. unfold get_default at 2. by rewrite E.
Qed.

Lemma enumerate_from_fst {X : Type} (l : list X) (n : nat) :
  map fst (enumerate_from n l) = seq n (length l).
Proof. revert n. induction l as [|x l IH]; intros n; simpl; [done|]. by rewrite IH. Qed.

Lemma enumerate_from_snd {X : Type} (l : list X) (n : nat) :
  map snd (enumerate_from n l) = l.
Proof. revert n. induction l as [|x l IH]; intros n; simpl; [done|]. by rewrite IH. Qed.

Lemma format_step_number (s : PrepFlowParser.step_info) :
  exists rest, ContextManager.format_step s
               = str_of_Z (PrepFlowParser.step_number s) +:+ ". **" +:+ rest.
Proof.
  unfold ContextManager.format_step.
  destruct (PrepFlowParser.step_detail_of s) as [|jt| | |]; try by eexists.
  destruct (truthy jt); [|by eexists].
  eexists. rewrite !append_assoc. reflexivity.
Qed.

End ParserFacts.

(** X2. A filter element yields a record exactly when its column or its
    field attribute is not empty: the extracted filters are those of the
    filter elements of the document, in document order, without the ones
    that name neither, so no extracted filter has both an empty column and
    an empty field. *)
Theorem filters_name_a_column_or_a_field (root : Element) :
  map (fun f => (flt_column f, flt_class f, flt_field f)) (extract_filters root)
    = List.filter (fun v => truthy v.1.1 || truthy v.2)
        (map (fun e => (get_default e "column" "", get_default e "class" "",
                        get_default e "field" ""))
             (findall root "filter" Any))
  /\ Forall (fun f => flt_column f <> "" \/ flt_field f <> "") (extract_filters root).
Proof.
  unfold extract_filters.
  rewrite fold_left_collect with
    (g := fun e =>
            let f := {| flt_column := get_default e "column" "";
                        flt_class := get_default e "class" "";
                        flt_field := get_default e "field" "" |} in
            if truthy (flt_column f) || truthy (flt_field f) then Some f else None).
  2: { intros acc e. simpl. destruct (_ || _); simpl; [done|]. by rewrite app_nil_r. }
  simpl. generalize (findall root "filter" Any). intros l. split.
  - induction l as [|e l IH]; simpl; [done|].
    destruct (truthy (get_default e "column" "") || truthy (get_default e "field" ""));
      simpl; by rewrite <- IH.
  - induction l as [|e l IH]; simpl; [constructor|].
    destruct (truthy (get_default e "column" "") || truthy (get_default e "field" ""))
      eqn:E; [|exact IH].
    constructor; [|exact IH]. simpl.
    apply orb_true_iff in E as [E|E]; apply truthy_nonempty in E; auto.
Qed.

Section BulletFacts.

Lemma append_empty_r (s : string) : s +:+ "" = s.
Proof.
  induction s as [|x s IH]; [done|].
  change (String x (s +:+ "") = String x s). by rewrite IH.
Qed.

Lemma Forall2_map_where {X Y : Type} (Q : X -> Prop) (P : X -> Y -> Prop)
  (f : X -> Y) (l : list X) :
  (forall x, In x l -> Q x) -> (forall x, Q x -> P x (f x)) -> Forall2 P l (map f l).
Proof.
  intros HQ HP. induction l as [|x l IH]; simpl; constructor.
  - apply HP, HQ. by left.
  - apply IH. intros y Hy. apply HQ. by right.
Qed.

(** The bullet of an extracted datasource, read off its element. *)
Lemma format_datasource_dict (ds : Element) (n : string) :
  get ds "name" = Some n ->
  ContextManager.format_datasource (datasource_dict ds)
  = "- **" +:+ default n (get ds "caption") +:+ "**: "
    +:+ match find ds "connection" Any with
        | None => "N/A"
        | Some conn =>
            default "None" (get conn "class")
            +:+ match get conn "dbname" with
                | Some v => if truthy v then " - " +:+ v else ""
                | None => ""
                end
            +:+ match get conn "server" with
                | Some v => if truthy v then " @ " +:+ v else ""
                | None => ""
                end
        end.
Proof.
  intros Hn. unfold ContextManager.format_datasource, datasource_dict,
    ContextManager.truthy_field, _extract_connection. simpl. rewrite Hn.
  assert (ContextManager.fmt_optional
            match get ds "caption" with Some c => Some c | None => Some n end
          = default n (get ds "caption")) as -> by (by destruct (get ds "caption")).
  do 3 f_equal.
  destruct (find ds "connection" Any) as [conn|]; [|done].
  simplify_map_eq.
  destruct (get conn "class") as [cls|]; simpl;
    destruct (get conn "dbname") as [db|]; simpl; try destruct (truthy db);
    destruct (get conn "server") as [srv|]; simpl; try destruct (truthy srv);
    rewrite ?append_assoc, ?append_empty_r; done.
Qed.

End BulletFacts.

(** X3. Every extracted datasource has a name and a caption, never a null:
    the caption is the caption attribute, or the name when the element has
    none. Its bullet in the context shows the caption, then [N/A] when no
    connection element is nested; with a connection element it shows the
    class (the word [None] when the class attribute is missing), then the
    database name and the server when they are present and not empty. *)
Theorem datasource_bullets (root : Element) :
  Forall (fun d => exists n c, ds_name d = Some n /\ ds_caption d = Some c)
         (extract_datasources root)
  /\ Forall2
       (fun ds line =>
          exists n, get ds "name" = Some n /\
          line = "- **" +:+ default n (get ds "caption") +:+ "**: "
                 +:+ match find ds "connection" Any with
                     | None => "N/A"
                     | Some conn =>
                         default "None" (get conn "class")
                         +:+ match get conn "dbname" with
                             | Some v => if truthy v then " - " +:+ v else ""
                             | None => ""
                             end
                         +:+ match get conn "server" with
                             | Some v => if truthy v then " @ " +:+ v else ""
                             | None => ""
                             end
                     end)
       (List.filter (fun ds => negb (internal_datasource (get ds "name")))
                    (findall root "datasource" (HasAttr "name")))
       (map ContextManager.format_datasource (extract_datasources root)).
Proof.
  rewrite extract_datasources_kept.
  assert (forall l : list Element,
            omap (fun ds => if internal_datasource (get ds "name") then None
                            else Some (datasource_dict ds)) l
            = map datasource_dict
                (List.filter (fun ds => negb (internal_datasource (get ds "name"))) l))
    as ->.
  { induction l as [|ds l IH]; simpl; [done|].
    destruct (internal_datasource (get ds "name")); simpl; by rewrite <- IH. }
  assert (forall ds,
            In ds (List.filter (fun ds => negb (internal_datasource (get ds "name")))
                     (findall root "datasource" (HasAttr "name"))) ->
            exists n, get ds "name" = Some n) as Hnamed.
  { intros ds H. apply filter_In in H as [H _]. by apply findall_has_attr in H. }
  split.
  - apply List.Forall_forall. intros d Hd. apply in_map_iff in Hd as (ds & <- & Hds).
    destruct (Hnamed ds Hds) as [n Hn]. exists n. simpl. rewrite Hn.
    destruct (get ds "caption") as [c|]; eauto.
  - rewrite map_map.
    apply Forall2_map_where with (Q := fun ds => exists n, get ds "name" = Some n);
      [exact Hnamed|].
    intros ds [n Hn]. exists n. split; [exact Hn|]. by apply format_datasource_dict.
Qed.

(** X5. The steps of a flow are its typed nodes in traversal order, the
    [i]-th of them (from 1) as the step numbered [i] with the node's type,
    id, name and input, an empty description, and the detail of its type:
    the join type of a join, the fields of the aggregations of an
    aggregate, the condition of a filter, the operation of a clean step,
    and none for any other type. In the context, the line of the [i]-th
    step is [i. **TYPE**: name], followed by the join type of a join that
    has one. *)
Theorem steps_are_the_numbered_typed_nodes (root : Element) :
  let typed := List.filter PrepFlowParser.has_type (findall root "node" Any) in
  let attr := fun (node : Element) (key : string) => default "" (get node key) in
  let detail := fun node : Element =>
    if String.eqb (attr node "type") "join"
    then PrepFlowParser.JoinType (attr node "join-type")
    else if String.eqb (attr node "type") "aggregate"
    then PrepFlowParser.Aggregations
           (map (fun field =>
                   {| PrepFlowParser.agg_name := attr field "name";
                      PrepFlowParser.agg_calculation := attr field "calculation";
                      PrepFlowParser.agg_source_field := attr field "source-field" |})
                (findall_child node "aggregations" "field"))
    else if String.eqb (attr node "type") "filter"
    then PrepFlowParser.Condition
           match find node "condition" Any with
           | None => ∅
           | Some cond =>
               <["value" := attr cond "value"]>
               (<["operator" := attr cond "operator"]>
               (<["field" := attr cond "field"]> ∅))
           end
    else if String.eqb (attr node "type") "clean"
    then PrepFlowParser.Operation
           match find node "operation" Any with
           | None => ∅
           | Some op =>
               <["field" := attr op "field"]> (<["type" := attr op "type"]> ∅)
           end
    else PrepFlowParser.NoDetail in
  PrepFlowParser.extract_step_sequence root
    = map (fun item : nat * Element =>
             {| PrepFlowParser.step_number := Z.of_nat (fst item);
                PrepFlowParser.step_type := attr (snd item) "type";
                PrepFlowParser.step_id := attr (snd item) "id";
                PrepFlowParser.step_name := attr (snd item) "name";
                PrepFlowParser.step_input_source := attr (snd item) "input";
                PrepFlowParser.step_description := "";
                PrepFlowParser.step_detail_of := detail (snd item) |})
          (enumerate_from 1 typed)
  /\ map ContextManager.format_step (PrepFlowParser.extract_step_sequence root)
     = map (fun item : nat * Element =>
              str_of_Z (Z.of_nat (fst item)) +:+ ". **"
              +:+ upper (attr (snd item) "type") +:+ "**: " +:+ attr (snd item) "name"
              +:+ (if String.eqb (attr (snd item) "type") "join"
                      && truthy (attr (snd item) "join-type")
                   then " (" +:+ attr (snd item) "join-type" +:+ " join)"
                   else ""))
           (enumerate_from 1 typed).
Proof.
  intros typed attr detail.
  assert (forall (i : nat) (node : Element),
            PrepFlowParser.step_dict (Z.of_nat i) (get_default node "type" "") node
            = {| PrepFlowParser.step_number := Z.of_nat i;
                 PrepFlowParser.step_type := attr node "type";
                 PrepFlowParser.step_id := attr node "id";
                 PrepFlowParser.step_name := attr node "name";
                 PrepFlowParser.step_input_source := attr node "input";
                 PrepFlowParser.step_description := "";
                 PrepFlowParser.step_detail_of := detail node |}) as Hdict.
  { intros i node. unfold PrepFlowParser.step_dict. f_equal.
    unfold PrepFlowParser.step_detail_for, detail.
    change (get_default node "type" "") with (attr node "type").
    destruct (String.eqb (attr node "type") "join"); [done|].
    destruct (String.eqb (attr node "type") "aggregate").
    { unfold PrepFlowParser._extract_aggregations.
      by rewrite fold_left_append_map. }
    done. }
  assert (PrepFlowParser.extract_step_sequence root
          = map (fun item : nat * Element =>
                   PrepFlowParser.step_dict (Z.of_nat (fst item))
                     (get_default (snd item) "type" "") (snd item))
                (enumerate_from 1 typed)) as Hsteps.
  { unfold PrepFlowParser.extract_step_sequence.
    exact (step_loop_closed (findall root "node" Any) [] 0). }
  rewrite Hsteps. split.
  - apply map_ext. intros [i node]. apply Hdict.
  - rewrite map_map. apply map_ext. intros [i node]. cbn [fst snd].
    rewrite Hdict. unfold ContextManager.format_step, detail.
    cbn [PrepFlowParser.step_number PrepFlowParser.step_type PrepFlowParser.step_name
         PrepFlowParser.step_detail_of].
    destruct (String.eqb (attr node "type") "join"); cbn [andb].
    + destruct (truthy (attr node "join-type"));
        rewrite ?append_assoc, ?append_empty_r; done.
    + destruct (String.eqb (attr node "type") "aggregate");
        [by rewrite ?append_assoc, ?append_empty_r|].
      destruct (String.eqb (attr node "type") "filter");
        [by rewrite ?append_assoc, ?append_empty_r|].
      destruct (String.eqb (attr node "type") "clean");
        by rewrite ?append_assoc, ?append_empty_r.
Qed.

Section StepFacts.

(** The ids and names of the steps of one type are those of the typed nodes
    of that type. *)
Lemma steps_of_type (root : Element) (t : string) :
  map (fun s => (PrepFlowParser.step_id s, PrepFlowParser.step_name s))
      (List.filter (fun s => String.eqb (PrepFlowParser.step_type s) t)
                   (PrepFlowParser.extract_step_sequence root))
  = map (fun node => (get_default node "id" "", get_default node "name" ""))
        (List.filter (fun node => String.eqb (get_default node "type" "") t)
                     (List.filter PrepFlowParser.has_type (findall root "node" Any))).
Proof.
  destruct (step_loop_invariant (findall root "node" Any) [] 0%Z) as [_ Hview].
  simpl in Hview. fold (PrepFlowParser.extract_step_sequence root) in Hview.
  rewrite <- (map_map PrepFlowParser.step_view (fun v => (v.1.2, v.2))).
  rewrite (map_filter_comm PrepFlowParser.step_view (fun v => String.eqb v.1.1 t)).
  rewrite Hview.
  rewrite <- (map_filter_comm PrepFlowParser.node_view (fun v => String.eqb v.1.1 t)).
  by rewrite map_map.
Qed.

End StepFacts.

(** X6. The input sources, the joins and the outputs of a flow are its steps
    of type [input], [join] and [output]: the same nodes, in the same order,
    with the same ids and names. *)
Theorem inputs_joins_outputs_are_steps (root : Element) :
  let of_type := fun t : string =>
    map (fun s => (PrepFlowParser.step_id s, PrepFlowParser.step_name s))
        (List.filter (fun s => String.eqb (PrepFlowParser.step_type s) t)
                     (PrepFlowParser.extract_step_sequence root)) in
  map (fun i => (PrepFlowParser.in_id i, PrepFlowParser.in_name i))
      (PrepFlowParser.extract_input_sources root) = of_type "input"
  /\ map (fun j => (PrepFlowParser.join_id j, PrepFlowParser.join_name j))
         (PrepFlowParser.extract_joins root) = of_type "join"
  /\ map (fun o => (PrepFlowParser.out_id o, PrepFlowParser.out_name o))
         (PrepFlowParser.extract_outputs root) = of_type "output".
Proof.
  intros of_type. unfold of_type. rewrite !steps_of_type.
  unfold PrepFlowParser.extract_input_sources, PrepFlowParser.extract_joins,
    PrepFlowParser.extract_outputs.
  rewrite !fold_left_append_map. simpl. rewrite !map_map. simpl.
  rewrite <- !findall_typed_nodes by done. done.
Qed.


(** ** Further properties of the context manager *)

Section HistoryFacts.

Lemma existsb_not_In_string (x : string) (l : list string) :
  ~ In x l -> existsb (String.eqb x) l = false.
Proof.
  intros H. destruct (existsb (String.eqb x) l) eqn:E; [|done].
  apply existsb_exists in E as (y & Hy & Heq). apply String.eqb_eq in Heq as ->.
  done.
Qed.

(** Without issues the context ends with the placeholder of the issues. *)
Lemma assemble_without_issues (self : state) (dashboard_name dashboard_type : string) :
  exists part,
    assemble (load_dashboard_metadata self dashboard_name dashboard_type) []
             dashboard_name dashboard_type
    = Returns (part +:+ separator +:+ no_issues_placeholder).
Proof.
  unfold assemble, context_parts.
  destruct (load_dashboard_metadata self dashboard_name dashboard_type) as [m|] eqn:E.
  - destruct (load_then_format self dashboard_name dashboard_type m E) as (part & -> & _).
    by exists part.
  - by eexists.
Qed.

Lemma select_rows_sublist {X : Type} (rows : list X) (mask : list bool) :
  sublist (select_rows rows mask) rows.
Proof.
  revert mask. induction rows as [|r rows IH]; intros mask; simpl.
  - constructor.
  - destruct mask as [|b mask]; [apply sublist_nil_l|].
    destruct b; [apply sublist_skip | apply sublist_cons]; apply IH.
Qed.

Lemma head_rows_sublist {X : Type} (n : Z) (rows : list X) :
  sublist (head_rows n rows) rows.
Proof. unfold head_rows. destruct (0 <=? n)%Z; apply sublist_take. Qed.

Lemma head_rows_length {X : Type} (n : Z) (rows : list X) :
  (0 <= n)%Z -> (length (head_rows n rows) <= Z.to_nat n)%nat.
Proof.
  intros Hn. unfold head_rows.
  assert ((0 <=? n)%Z = true) as -> by (by apply Z.leb_le).
  rewrite length_take. lia.
Qed.

(** The rows a mask of the name column selects hold a text in that
    column. *)
Lemma selected_rows_have_text (df : DataFrame) (f : string -> bool) :
  Forall (fun row => exists s, row !! dashboard_column = Some (CStr s))
         (select_rows (records df)
            (map (fun c => match c with CStr s => f s | CNaN => false end)
                 (series df dashboard_column))).
Proof.
  unfold series. rewrite map_map, select_rows_mask.
  apply List.Forall_forall. intros row H. apply filter_In in H as [_ H].
  destruct (row !! dashboard_column) as [[s|]|]; simpl in H; try done.
  by exists s.
Qed.

End HistoryFacts.

(** X8. When the table of issues was not loaded, or has no row, or lacks the
    dashboard-name column, the lookup returns no issue for every name and
    every limit, also for a name that is no valid pattern, and the context
    of every dashboard is built and ends with the placeholder of the
    issues. *)
Theorem lookup_without_history (self : state) (dashboard_name : string)
  (limit : option Z) :
  (issues_df self = None
   \/ exists df, issues_df self = Some df
                 /\ (records df = [] \/ ~ In dashboard_column (columns df))) ->
  get_relevant_issues self dashboard_name limit = Returns []
  /\ forall dashboard_type, exists part,
       build_context_summary self dashboard_name dashboard_type
       = Returns (part +:+ separator +:+ no_issues_placeholder).
Proof.
  intros H.
  assert (forall l, get_relevant_issues self dashboard_name l = Returns []) as Hempty.
  { intros l. unfold get_relevant_issues.
    destruct H as [-> | (df & -> & [Hrows | Hcol])]; [done| |].
    - by rewrite Hrows.
    - destruct (Nat.eqb (length (records df)) 0); [done|].
      by rewrite (existsb_not_In_string _ _ Hcol). }
  split; [apply Hempty|].
  intros dashboard_type. unfold build_context_summary. rewrite Hempty.
  apply assemble_without_issues.
Qed.

(** X8 on a manager without a table, at a name that is no valid pattern. *)
Lemma lookup_without_history_sample :
  get_relevant_issues MoreSamples.manager_without_table "*sales" (Some 3%Z) = Returns []
  /\ exists part,
       build_context_summary MoreSamples.manager_without_table "*sales" "workbook"
       = Returns (part +:+ separator +:+ no_issues_placeholder).
Proof.
  destruct (lookup_without_history MoreSamples.manager_without_table "*sales" (Some 3%Z))
    as [H1 H2].
  - left. reflexivity.
  - split; [exact H1 | exact (H2 "workbook")].
Defined.

(** X9. Whatever the name and the limit, the rows a lookup returns are rows
    of the table, in the order of the table, each with a text in the
    dashboard-name column; and with a limit of zero or more (the given one,
    or the configured one, or 5) there are at most that many. *)
Theorem lookup_returns_rows_of_the_table (self : state) (df : DataFrame)
  (dashboard_name : string) (limit : option Z) (rows : list (gmap string cell)) :
  issues_df self = Some df ->
  get_relevant_issues self dashboard_name limit = Returns rows ->
  sublist rows (records df)
  /\ Forall (fun row => exists s, row !! dashboard_column = Some (CStr s)) rows
  /\ let effective := match limit with
                      | Some l => l
                      | None => default 5%Z (env_max_issues self)
                      end in
     ((0 <= effective)%Z -> (length rows <= Z.to_nat effective)%nat).
Proof.
  intros Hdf. unfold get_relevant_issues. rewrite Hdf.
  destruct (Nat.eqb (length (records df)) 0).
  { intros [= <-]. repeat split; [apply sublist_nil_l | constructor | simpl; lia]. }
  destruct (negb (existsb (String.eqb dashboard_column) (columns df))).
  { intros [= <-]. repeat split; [apply sublist_nil_l | constructor | simpl; lia]. }
  unfold str_contains.
  destruct (negb (existsb is_text (series df dashboard_column))); [done|].
  destruct (negb (ascii_only dashboard_name && _)); [done|].
  destruct (re_compile dashboard_name) as [atoms| |]; [|done|done].
  intros [= <-]. split; [|split].
  - etransitivity; [apply head_rows_sublist | apply select_rows_sublist].
  - unfold head_rows.
    destruct (0 <=? _)%Z; apply Forall_take, selected_rows_have_text.
  - cbv zeta. intros Heffective. by apply head_rows_length.
Qed.

(** X9 on a table of five rows, at a name with a wildcard and a limit of
    two: three rows match, the first two of them are returned. *)
Lemma lookup_returns_rows_sample :
  let rows := [ MoreSamples.name_row (CStr "Sales EU");
                MoreSamples.name_row (CStr "sales us") ] in
  get_relevant_issues MoreSamples.names_manager "s.les" (Some 2%Z) = Returns rows
  /\ sublist rows (records MoreSamples.names_table)
  /\ Forall (fun row => exists s, row !! dashboard_column = Some (CStr s)) rows
  /\ (length rows <= 2)%nat.
Proof.
  intros rows.
  assert (get_relevant_issues MoreSamples.names_manager "s.les" (Some 2%Z)
          = Returns rows) as Hrows by (vm_compute; reflexivity).
  destruct (lookup_returns_rows_of_the_table MoreSamples.names_manager
              MoreSamples.names_table "s.les" (Some 2%Z) rows eq_refl Hrows)
    as (H1 & H2 & H3).
  split; [exact Hrows|]. split; [exact H1|]. split; [exact H2|]. apply H3. lia.
Defined.

Section IssueBlocks.

(** The five lines of the issue numbered [i]. *)
Let block (item : nat * gmap string cell) : list string :=
  [ "## Issue " +:+ str_of_Z (Z.of_nat (fst item)) +:+ ":";
    "**Description:** " +:+ issue_field (snd item) "Issue Description";
    "**Root Cause:** " +:+ issue_field (snd item) "Root Cause";
    "**Resolution:** " +:+ issue_field (snd item) "Resolution";
    "" ].

Lemma issue_sections_blocks (issues : list (gmap string cell)) :
  issues <> [] ->
  issue_sections issues
  = [ "# Historical Issues & Resolutions" +:+ newline_str;
      "_Found " +:+ str_of_Z (Z.of_nat (length issues))
      +:+ " similar past issue(s):_" +:+ newline_str ]
    ++ flat_map block (enumerate_from 1 issues).
Proof.
  intros Hne. unfold issue_sections.
  destruct issues as [|issue issues]; [done|]. cbn [nonempty negb].
  rewrite fold_left_append_blocks with (f := block); [done|].
  by intros acc [i x].
Qed.

Lemma blocks_length (l : list (gmap string cell)) (n : nat) :
  length (flat_map block (enumerate_from n l)) = 5 * length l.
Proof.
  revert n. induction l as [|x l IH]; intros n; [done|].
  cbn [enumerate_from flat_map]. rewrite length_app, IH. simpl length. lia.
Qed.

Lemma blocks_lookup (l : list (gmap string cell)) :
  forall (n k j : nat) (issue : gmap string cell),
    l !! k = Some issue -> j < 5 ->
    flat_map block (enumerate_from n l) !! (5 * k + j) = block (n + k, issue) !! j.
Proof.
  induction l as [|x l IH]; intros n k j issue Hk Hj; [done|].
  cbn [enumerate_from flat_map]. destruct k as [|k].
  - injection Hk as ->. rewrite Nat.add_0_r. change (5 * 0 + j) with j.
    by rewrite lookup_app_l by (simpl; lia).
  - rewrite lookup_app_r by (simpl; lia).
    replace (5 * S k + j - length (block (n, x))) with (5 * k + j) by (simpl; lia).
    replace (n + S k) with (S n + k) by lia.
    by apply IH.
Qed.

End IssueBlocks.

(** X10. A list of [n] issues, [n] at least 1, is rendered as the header,
    the line that tells [n], and one block of five lines per issue in the
    order of the list: the heading with the number of the issue counted
    from 1, the description, the root cause, the resolution and an empty
    line, [2 + 5 n] lines in all. *)
Theorem issues_render_in_numbered_blocks (issues : list (gmap string cell)) :
  issues <> [] ->
  length (issue_sections issues) = 2 + 5 * length issues
  /\ issue_sections issues !! 1
     = Some ("_Found " +:+ str_of_Z (Z.of_nat (length issues))
             +:+ " similar past issue(s):_" +:+ newline_str)
  /\ forall (k : nat) (issue : gmap string cell),
       issues !! k = Some issue ->
       issue_sections issues !! (2 + (5 * k + 0))
         = Some ("## Issue " +:+ str_of_Z (Z.of_nat (1 + k)) +:+ ":")
       /\ issue_sections issues !! (2 + (5 * k + 1))
          = Some ("**Description:** " +:+ issue_field issue "Issue Description")
       /\ issue_sections issues !! (2 + (5 * k + 2))
          = Some ("**Root Cause:** " +:+ issue_field issue "Root Cause")
       /\ issue_sections issues !! (2 + (5 * k + 3))
          = Some ("**Resolution:** " +:+ issue_field issue "Resolution")
       /\ issue_sections issues !! (2 + (5 * k + 4)) = Some "".
Proof.
  intros Hne. rewrite (issue_sections_blocks issues Hne).
  split; [|split].
  - rewrite length_app, blocks_length. simpl. lia.
  - done.
  - intros k issue Hk.
    repeat split;
      (rewrite lookup_app_r by (simpl; lia); cbn [length];
       match goal with
       | |- context [2 + (5 * k + ?j) - _] =>
           replace (2 + (5 * k + j) - 2) with (5 * k + j) by lia
       end;
       by rewrite (blocks_lookup issues 1 k _ issue Hk) by lia).
Qed.

(** X10 on one issue that has a description and nothing else: the missing
    fields read [N/A]. *)
Lemma issues_render_sample :
  issue_sections [ {[ "Issue Description" := CStr "blank chart" ]} ]
  !! 2 = Some "## Issue 1:"
  /\ issue_sections [ {[ "Issue Description" := CStr "blank chart" ]} ]
     !! 4 = Some "**Root Cause:** N/A".
Proof.
  destruct (issues_render_in_numbered_blocks
              [ {[ "Issue Description" := CStr "blank chart" ]} ])
    as (_ & _ & Hblock); [done|].
  destruct (Hblock 0%nat {[ "Issue Description" := CStr "blank chart" ]} eq_refl)
    as (H0 & _ & H2 & _).
  split; [exact H0 | exact H2].
Defined.

(** X11. The flow formatter renders the title, then the sub-sections input
    sources, steps, joins and outputs in this order, each only when its
    collection is not empty. Every step has its line, whatever their
    number, and every join has its headline followed by one line per
    condition. *)
Theorem flow_layout_has_every_step_and_condition
  (metadata : PrepFlowParser.prepflow_metadata) :
  prepflow_sections metadata =
    ["# Tableau Prep Flow: " +:+ PrepFlowParser.flow_name metadata +:+ newline_str]
    ++ sub_section (PrepFlowParser.input_sources metadata) "## Input Sources:"
         (map format_input_source (PrepFlowParser.input_sources metadata))
    ++ sub_section (PrepFlowParser.steps metadata)
         (newline_str +:+ "## Transformation Steps:")
         (map format_step (PrepFlowParser.steps metadata))
    ++ sub_section (PrepFlowParser.joins metadata) (newline_str +:+ "## Join Details:")
         (flat_map (format_flow_join []) (PrepFlowParser.joins metadata))
    ++ sub_section (PrepFlowParser.outputs metadata)
         (newline_str +:+ "## Output Destinations:")
         (map format_output (PrepFlowParser.outputs metadata))
  /\ Forall (fun join =>
               length (format_flow_join [] join)
               = S (length (PrepFlowParser.join_conditions join))
               /\ tail (format_flow_join [] join)
                  = map format_condition (PrepFlowParser.join_conditions join))
            (PrepFlowParser.joins metadata)
  /\ length (prepflow_sections metadata)
     = 1 + (if nonempty (PrepFlowParser.input_sources metadata)
            then 1 + length (PrepFlowParser.input_sources metadata) else 0)
         + (if nonempty (PrepFlowParser.steps metadata)
            then 1 + length (PrepFlowParser.steps metadata) else 0)
         + (if nonempty (PrepFlowParser.joins metadata)
            then 1 + length (flat_map (format_flow_join []) (PrepFlowParser.joins metadata))
            else 0)
         + (if nonempty (PrepFlowParser.outputs metadata)
            then 1 + length (PrepFlowParser.outputs metadata) else 0).
Proof.
  split; [apply prepflow_sections_layout|]. split.
  - apply List.Forall_forall. intros join _. unfold format_flow_join.
    rewrite append_each_map. simpl. by rewrite length_map.
  - rewrite prepflow_sections_layout. unfold sub_section.
    rewrite !length_app. simpl length.
    destruct (nonempty (PrepFlowParser.input_sources metadata));
      destruct (nonempty (PrepFlowParser.steps metadata));
      destruct (nonempty (PrepFlowParser.joins metadata));
      destruct (nonempty (PrepFlowParser.outputs metadata));
      simpl length; rewrite ?length_map; lia.
Qed.

(** ** Properties of the prompt builder *)

Section PromptFacts.
Import PromptBuilder.

Lemma string_length_append (a b : string) :
  String.length (a +:+ b) = String.length a + String.length b.
Proof.
  induction a as [|x a IH]; [done|].
  change (S (String.length (a +:+ b)) = S (String.length a + String.length b)).
  by rewrite IH.
Qed.

Lemma str_take_length (n : nat) (s : string) :
  String.length (str_take n s) = Nat.min n (String.length s).
Proof.
  revert s. induction n as [|n IH]; intros s; [done|].
  destruct s as [|c s]; [done|]. simpl. by rewrite IH.
Qed.

Lemma str_take_prefix (n : nat) (s : string) : startswith (str_take n s) s = true.
Proof.
  revert s. induction n as [|n IH]; intros s; [done|].
  destruct s as [|c s]; [done|]. simpl. by rewrite Ascii.eqb_refl.
Qed.

Lemma history_lines_map (self : state) (chat_history : list chat_entry) :
  history_lines self chat_history
  = "Previous Conversation:"
    :: map history_line
         (recent_history (default 4%Z (env_max_chat_history self)) chat_history).
Proof. unfold history_lines. by rewrite fold_left_append_map. Qed.

Lemma format_chat_history_opens (self : state) (chat_history : list chat_entry) :
  exists rest, _format_chat_history self chat_history = "Previous Conversation:" +:+ rest.
Proof.
  unfold _format_chat_history. rewrite history_lines_map.
  destruct (map history_line _) as [|line lines].
  - exists "". by rewrite append_empty_r.
  - by eexists.
Qed.

End PromptFacts.

Import PromptBuilder.

(** X12. With a window of [m] turns, [m] at least 1 (the configured value,
    or 4), the conversation is shown as its header followed by one line per
    turn for the last [m] turns, in their order; a shorter conversation is
    shown whole. *)
Theorem history_keeps_the_last_turns (self : PromptBuilder.state)
  (chat_history : list chat_entry) :
  let m := default 4%Z (env_max_chat_history self) in
  (1 <= m)%Z ->
  history_lines self chat_history
    = "Previous Conversation:"
      :: map history_line (skipn (length chat_history - Z.to_nat m) chat_history)
  /\ length (history_lines self chat_history)
     = 1 + Nat.min (length chat_history) (Z.to_nat m).
Proof.
  intros m Hm.
  assert (recent_history m chat_history
          = skipn (length chat_history - Z.to_nat m) chat_history) as Hrecent.
  { unfold recent_history, slice_from.
    destruct (m <? Z.of_nat (length chat_history))%Z eqn:E.
    - assert ((- m <? 0)%Z = true) as -> by (apply Z.ltb_lt; lia).
      by rewrite Z.opp_involutive.
    - apply Z.ltb_ge in E.
      by replace (length chat_history - Z.to_nat m) with 0 by lia. }
  rewrite history_lines_map. fold m. rewrite Hrecent. split; [done|].
  simpl. rewrite length_map, length_skipn. lia.
Qed.

(** X12 on six turns with the default window of four. *)
Lemma history_of_six_turns :
  history_lines MoreSamples.builder MoreSamples.six_turns
  = [ "Previous Conversation:";
      newline_str +:+ "User: q2"; newline_str +:+ "Assistant: a2";
      newline_str +:+ "User: q3"; newline_str +:+ "Assistant: a3" ].
Proof.
  destruct (history_keeps_the_last_turns MoreSamples.builder MoreSamples.six_turns)
    as [-> _]; [simpl; lia|].
  vm_compute. reflexivity.
Defined.

(** X13. The content of a turn is never shown with more than 500
    characters: a content of at most 500 characters is shown as it is, a
    longer one as its first 497 characters followed by three dots, 500
    characters in all. *)
Theorem shown_content_is_bounded (content : string) :
  (String.length (shown_content content) <= 500)%nat
  /\ ((String.length content <= 500)%nat -> shown_content content = content)
  /\ ((500 < String.length content)%nat ->
      shown_content content = str_take 497 content +:+ "..."
      /\ String.length (shown_content content) = 500%nat
      /\ startswith (str_take 497 content) content = true).
Proof.
  unfold shown_content.
  destruct (500 <? String.length content)%nat eqn:E.
  - apply Nat.ltb_lt in E.
    assert (String.length (str_take 497 content +:+ "...") = 500%nat) as Hlen.
    { rewrite string_length_append, str_take_length. simpl String.length. lia. }
    split; [lia|]. split; [lia|]. intros _. split; [done|]. split; [exact Hlen|].
    apply str_take_prefix.
  - apply Nat.ltb_ge in E. split; [lia|]. split; [done|]. lia.
Qed.

(** X13 on a message of 600 characters. *)
Lemma shown_long_message :
  (500 < String.length MoreSamples.long_message)%nat
  /\ String.length (shown_content MoreSamples.long_message) = 500%nat.
Proof.
  assert (500 < String.length MoreSamples.long_message)%nat as H by (vm_compute; lia).
  split; [exact H|].
  destruct (shown_content_is_bounded MoreSamples.long_message) as (_ & _ & Hlong).
  by destruct (Hlong H) as (_ & Hlen & _).
Defined.

(** X14. A window that is not positive is no window of that many turns: a
    window of 0 keeps every turn, and a window of [-k] drops the first [k]
    turns and keeps the rest, if any. *)
Theorem nonpositive_window_keeps_turns (m : Z) (chat_history : list chat_entry) :
  (m <= 0)%Z ->
  recent_history m chat_history = skipn (Z.to_nat (- m)) chat_history.
Proof.
  intros Hm. unfold recent_history, slice_from.
  destruct (m <? Z.of_nat (length chat_history))%Z eqn:E.
  - by assert ((- m <? 0)%Z = false) as -> by (apply Z.ltb_ge; lia).
  - apply Z.ltb_ge in E.
    assert (chat_history = []) as -> by (destruct chat_history; [done|simpl in E; lia]).
    by rewrite skipn_nil.
Qed.

(** X14 on six turns: a window of 0 keeps the six, a window of -2 the last
    four. *)
Lemma nonpositive_window_sample :
  recent_history 0 MoreSamples.six_turns = MoreSamples.six_turns
  /\ length (recent_history (-2) MoreSamples.six_turns) = 4%nat.
Proof.
  split.
  - by rewrite (nonpositive_window_keeps_turns 0 MoreSamples.six_turns) by lia.
  - by rewrite (nonpositive_window_keeps_turns (-2) MoreSamples.six_turns) by lia.
Defined.

(** X15. The user message of a prompt always ends with the filled template,
    which carries the context and the query as they are; it is the template
    alone without a conversation (none, or an empty one), and opens with the
    conversation otherwise. The system prompt of a builder is never empty: a
    missing or empty custom prompt gives the default one. *)
Theorem prompt_carries_context_and_query (self : PromptBuilder.state)
  (context user_query : string) (chat_history : option (list chat_entry)) :
  let p := build_prompt self context user_query chat_history in
  (exists opening, user p = opening +:+ USER_PROMPT context user_query)
  /\ contains context (user p) = true
  /\ contains user_query (user p) = true
  /\ match chat_history with
     | Some (_ :: _) => startswith "Previous Conversation:" (user p) = true
     | _ => user p = USER_PROMPT context user_query
     end
  /\ system p = system_prompt self
  /\ forall custom env, truthy (system_prompt (init custom env)) = true.
Proof.
  intros p.
  assert (contains context (USER_PROMPT context user_query) = true) as Hc.
  { unfold USER_PROMPT. do 2 apply contains_skip. apply contains_here. }
  assert (contains user_query (USER_PROMPT context user_query) = true) as Hq.
  { unfold USER_PROMPT. do 10 apply contains_skip. apply contains_here. }
  assert (forall custom env, truthy (system_prompt (init custom env)) = true) as Hsys.
  { intros [c|] env; cbn [init system_prompt]; [destruct (truthy c) eqn:T|]; done. }
  subst p. unfold build_prompt. cbn [user system].
  destruct chat_history as [[|entry rest]|].
  - split; [by exists ""|]. by repeat split.
  - split; [|split; [|split; [|split; [|split]]]]; try done.
    + eexists. rewrite <- !append_assoc. reflexivity.
    + by do 6 apply contains_skip.
    + by do 6 apply contains_skip.
    + destruct (format_chat_history_opens self (entry :: rest)) as [tail ->].
      rewrite append_assoc. apply startswith_prefix. by eexists.
  - split; [by exists ""|]. by repeat split.
Qed.
